(** * Venlo Weer: the data-transformation core of [app.py]

    A shallow embedding of the testable part of the Streamlit weather
    dashboard: the two lookup tables ([get_weather_emoji],
    [direction_to_text]), the normalisation of the current-conditions
    record in [main], the hourly tabular projection in [main], and the
    memoised weather client ([fetch_weather_data] under
    [st.cache_data(ttl=600)]). The second part adds the chart frame of the
    hourly tab, the 7-day tab and its wind panel, and series of reruns of
    [main].

    Conventions.
    - A Python [dict] with string keys is a [gmap string _]; an absent key
      is a [None] lookup.
    - A Python [float] is its exact rational value ([Q]); [x / 22.5] is the
      exact quotient. At every input used below (11.24, 11.25, 11.26, the
      range 348.75..360) the IEEE quotient rounds to the same integer as
      the exact one: 11.25, 22.5 and 348.75 are dyadic, so the ties there
      are exact ties in binary floating point as well.
    - A Python [str] is a [string]; indices count characters, which for the
      ASCII timestamps of the upstream API are bytes.
    - A Python exception is the left injection of a sum ([exn + A]). *)

From Stdlib Require Import ZArith QArith Qround Qcanon String.
From stdpp Require Import gmap strings list fin_maps.

Local Open Scope string_scope.
Local Open Scope Z_scope.

(** ** Python values and exceptions *)

(** Scalars that the decoded JSON carries inside the [current] record and
    inside the hourly arrays. A [VFloat] is a finite float (NaN and the
    infinities have no rational value and are not values of this model);
    JSON arrays and objects in the place of a scalar are not modelled
    either. *)
Inductive value : Type :=
  | VNone
  | VBool (b : bool)
  | VInt (z : Z)
  | VFloat (q : Q)
  | VStr (s : string).

Inductive exn : Type :=
  | KeyError
  | TypeError
  | ValueError
  | IndexError.

Global Instance Q_eq_dec : EqDecision Q.
Proof. solve_decision. Defined.

Global Instance value_eq_dec : EqDecision value.
Proof. solve_decision. Defined.

Global Instance exn_eq_dec : EqDecision exn.
Proof. solve_decision. Defined.

(** The error monad in which fallible Python code runs. *)
Global Instance exn_ret : MRet (sum exn) := λ A x, inr x.

Global Instance exn_bind : MBind (sum exn) := λ A B f m,
  match m with
  | inl e => inl e
  | inr x => f x
  end.

(** [raise e] *)
Definition raise {A} (e : exn) : exn + A := inl e.

(** Python truthiness, as used by [or]. *)
Definition truthy (v : value) : bool :=
  match v with
  | VNone => false
  | VBool b => b
  | VInt z => negb (z =? 0)
  | VFloat q => negb (Qeq_bool q 0)
  | VStr s => negb (String.eqb s "")
  end.

(** [a or b] *)
Definition py_or (a b : value) : value := if truthy a then a else b.

(** [k in d] *)
Definition py_in {V} (k : string) (d : gmap string V) : bool :=
  match d !! k with
  | Some _ => true
  | None => false
  end.

(** [d.get(k, dflt)] *)
Definition py_get {V} (d : gmap string V) (k : string) (dflt : V) : V :=
  default dflt (d !! k).

(** [d[k]], which raises [KeyError] on an absent key. *)
Definition py_getitem {V} (d : gmap string V) (k : string) : exn + V :=
  match d !! k with
  | Some v => inr v
  | None => raise KeyError
  end.

(** [l[i]] on a list: a negative index counts from the end, and an index
    out of range raises [IndexError]. *)
Definition py_list_getitem {A} (l : list A) (i : Z) : exn + A :=
  let n := Z.of_nat (length l) in
  let j := if i <? 0 then i + n else i in
  if (j <? 0) || (n <=? j) then raise IndexError
  else match l !! Z.to_nat j with
       | Some x => inr x
       | None => raise IndexError
       end.

(** The number a value denotes as an operand of true division; [None] and
    strings raise [TypeError], a [bool] counts as 0 or 1. An [int] is taken
    exactly: the rounding of an [int] beyond 2^53 and the [OverflowError]
    of one beyond the float range are left out, so statements about
    integer operands are made for [small_int] values only. *)
Definition as_number (v : value) : exn + Q :=
  match v with
  | VInt z => inr (inject_Z z)
  | VFloat q => inr q
  | VBool b => inr (inject_Z (if b then 1 else 0))
  | VNone | VStr _ => raise TypeError
  end.

(** Python 3 [round(x)] with one argument: the nearest integer, a tie going
    to the even neighbour. *)
Definition py_round (x : Q) : Z :=
  let f := Qfloor x in
  let twice_frac := 2 * Qnum x - 2 * f * Zpos (Qden x) in
  match twice_frac ?= Zpos (Qden x) with
  | Lt => f
  | Gt => f + 1
  | Eq => if Z.even f then f else f + 1
  end.

(** ** Lookup tables *)

Definition fallback_emoji : string := "🌡️".

(** The dict literal of [get_weather_emoji], in source order. *)
Definition codes_items : list (Z * string) :=
  [ (0, "☀️"); (1, "🌤️"); (2, "⛅"); (3, "☁️"); (45, "🌫️"); (48, "🌫️");
    (51, "🌧️"); (53, "🌧️"); (55, "🌧️"); (61, "🌧️"); (63, "🌧️"); (65, "🌧️");
    (66, "🌨️"); (67, "🌨️"); (71, "❄️"); (73, "❄️"); (75, "❄️");
    (77, "❄️"); (80, "🌦️"); (81, "🌦️"); (82, "🌦️"); (85, "🌨️"); (86, "🌨️");
    (95, "⛈️"); (96, "⛈️"); (99, "⛈️") ].

(** A dict display inserts its items left to right. *)
Definition codes : gmap Z string :=
  foldl (λ d kv, <[kv.1 := kv.2]> d) ∅ codes_items.

(** The closed set of condition codes the table knows. *)
Definition known_codes : list Z := codes_items.*1.

Definition get_weather_emoji (code : Z) : string :=
  default fallback_emoji (codes !! code).

Definition directions : list string :=
  [ "N"; "NNO"; "NO"; "ONO"; "O"; "OZO"; "ZO"; "ZZO";
    "Z"; "ZZW"; "ZW"; "WZW"; "W"; "WNW"; "NW"; "NNW" ].

(** [22.5] *)
Definition sector_width : Q := 45 # 2.

(** [idx = round(degrees / 22.5) % 16] *)
Definition direction_index (degrees : Q) : Z :=
  py_round (degrees / sector_width) mod 16.

Definition direction_to_text (degrees : value) : exn + string :=
  d ← as_number degrees;
  py_list_getitem directions (direction_index d).

(** Whole bearings of ordinary size. An [int] below 2^53 converts to a
    float exactly, and a quotient of an integer by 22.5 is never nearer
    than 1/90 to a rounding tie, so within this range the floating-point
    quotient rounds to the same integer as the exact one. *)
Definition small_int (d : Z) : Prop := -1000000000 ≤ d ≤ 1000000000.

(** ** The decoded upstream response *)

(** The top-level JSON object: each section is present or absent. *)
Record ForecastResponse : Type := {
  current : option (gmap string value);
  current_weather : option (gmap string value);
  hourly : option (gmap string (list value));
  daily : option (gmap string (list value))
}.

(** ** Shape normaliser (the head of [main]) *)

(** [data.get("current") or data.get("current_weather", {})]: an absent
    section reads as [None], which is falsy like the empty dict. *)
Definition select_current (data : ForecastResponse) : gmap string value :=
  match current data with
  | Some c => if decide (c = ∅) then default ∅ (current_weather data) else c
  | None => default ∅ (current_weather data)
  end.

(** The guard of the legacy branch:
    ["windspeed" in current and "wind_speed_10m" not in current]. *)
Definition is_legacy (cur : gmap string value) : bool :=
  py_in "windspeed" cur && negb (py_in "wind_speed_10m" cur).

(** The in-place update of [current]; the five assignments run in source
    order, each reading the dict left by the previous one. *)
Definition normalize_current (cur : gmap string value)
  : exn + gmap string value :=
  if is_legacy cur then
    ws ← py_getitem cur "windspeed";
    let cur := <["wind_speed_10m" := ws]> cur in
    let cur := <["wind_direction_10m" := py_get cur "winddirection" (VInt 0)]> cur in
    let cur := <["temperature_2m" := py_get cur "temperature" (VInt 0)]> cur in
    let cur := <["weather_code" := py_get cur "weathercode" (VInt 0)]> cur in
    mret (<["relative_humidity_2m" := VNone]> cur)
  else mret cur.

(** The scalars that [main] reads off the normalised record for display. *)
Record CurrentConditions : Type := {
  weather_code : value;
  temp : value;
  humidity : value;
  wind_speed : value;
  wind_dir : value
}.

Definition read_current (cur : gmap string value) : CurrentConditions :=
  {| weather_code := py_get cur "weather_code" (VInt 0);
     temp := py_get cur "temperature_2m" (VInt 0);
     humidity := py_or (py_get cur "relative_humidity_2m" VNone) (VInt 0);
     wind_speed := py_get cur "wind_speed_10m" (VInt 0);
     wind_dir := py_get cur "wind_direction_10m" (VInt 0) |}.

(** From the response to the displayed scalars. *)
Definition current_conditions (data : ForecastResponse)
  : exn + CurrentConditions :=
  cur ← normalize_current (select_current data);
  mret (read_current cur).

(** A field is entirely missing from a raw record when neither its modern
    nor its legacy name is a key. *)
Definition entirely_missing (cur : gmap string value) (modern legacy : string)
  : bool :=
  negb (py_in modern cur) && negb (py_in legacy cur).

(** The five modern field names. *)
Definition modern_fields : list string :=
  [ "temperature_2m"; "relative_humidity_2m"; "wind_speed_10m";
    "wind_direction_10m"; "weather_code" ].

(** A record is canonical when it carries every modern field name. *)
Definition is_canonical (cur : gmap string value) : bool :=
  forallb (λ k, py_in k cur) modern_fields.

(** Sample records: a legacy-shaped one and a modern-shaped one. *)
Definition legacy_example : gmap string value :=
  {[ "temperature" := VFloat (25 # 2); "windspeed" := VInt 20;
     "winddirection" := VInt 90; "weathercode" := VInt 3 ]}.

Definition modern_example : gmap string value :=
  {[ "temperature_2m" := VFloat (25 # 2); "relative_humidity_2m" := VInt 0;
     "wind_speed_10m" := VInt 20; "wind_direction_10m" := VInt 90;
     "weather_code" := VInt 3 ]}.

(** A record of mixed shape: a legacy wind speed next to modern fields. *)
Definition mixed_example : gmap string value :=
  {[ "windspeed" := VInt 5; "temperature_2m" := VFloat (43 # 2);
     "relative_humidity_2m" := VInt 80 ]}.

(** ** Tabular projection (the hourly tab of [main]) *)

(** The five sliced arrays, [hourly.get(name, dflt)[:48]]. *)
Record HourlyColumns : Type := {
  times : list value;
  temps : list value;
  wind_speeds : list value;
  wind_dirs : list value;
  precip_probs : list value
}.

Definition slice_hourly (h : gmap string (list value)) : HourlyColumns :=
  {| times := take 48 (py_get h "time" []);
     temps := take 48 (py_get h "temperature_2m" []);
     wind_speeds := take 48 (py_get h "wind_speed_10m" []);
     wind_dirs := take 48 (py_get h "wind_direction_10m" []);
     precip_probs :=
       take 48 (py_get h "precipitation_probability" (replicate 48 VNone)) |}.

(** [len(t)] *)
Definition py_len (t : value) : exn + nat :=
  match t with
  | VStr s => inr (String.length s)
  | _ => raise TypeError
  end.

(** [t[lo:hi]] for constant bounds [0 <= lo <= hi]; a slice that runs past
    the end of the string is clipped. *)
Definition py_slice (t : value) (lo hi : nat) : exn + value :=
  match t with
  | VStr s => inr (VStr (substring lo (hi - lo) s))
  | _ => raise TypeError
  end.

(** [t[11:16] if len(t) > 10 else t] *)
Definition time_of_day (t : value) : exn + value :=
  n ← py_len t;
  if (10 <? n)%nat then py_slice t 11 16 else mret t.

(** [t[:10]] *)
Definition date_of (t : value) : exn + value :=
  py_slice t 0 10.

(** One cell of the [Windrichting] column. *)
Definition direction_cell (d : value) : exn + value :=
  s ← direction_to_text d;
  mret (VStr s).

(** A data frame is its named columns. *)
Definition DataFrame : Type := list (string * list value).

(** [pd.DataFrame(dict_of_lists)]: pandas raises [ValueError] unless all
    the arrays have one length. The columns of the model are the lists
    handed to pandas: names, lengths and string cells are those of the
    frame, while pandas may store a numeric column in another dtype (an
    [int] or [None] among floats becomes a float or NaN). *)
Definition pd_DataFrame (cols : list (string * list value)) : exn + DataFrame :=
  match cols with
  | [] => inr []
  | (_, c) :: rest =>
      if forallb (λ kc, (length kc.2 =? length c)%nat) rest
      then inr cols
      else raise ValueError
  end.

Definition n_rows (df : DataFrame) : nat :=
  match df with
  | [] => 0%nat
  | (_, c) :: _ => length c
  end.

(** The named column of a frame. *)
Definition column (df : DataFrame) (name : string) : option (list value) :=
  (λ hit, hit.2.2) <$> list_find (λ kc, kc.1 = name) df.

(** The dict passed to [pd.DataFrame]; the list comprehensions run in
    source order, so the first failing one decides the exception. *)
Definition hourly_frame (c : HourlyColumns) : exn + DataFrame :=
  tijd ← mapM time_of_day (times c);
  datum ← mapM date_of (times c);
  windrichting ← mapM direction_cell (wind_dirs c);
  pd_DataFrame
    [ ("Tijd", tijd); ("Datum", datum); ("Temp (°C)", temps c);
      ("Wind (km/h)", wind_speeds c); ("Windrichting", windrichting);
      ("Neerslag %", precip_probs c) ].

Definition hourly_projection (h : gmap string (list value)) : exn + DataFrame :=
  hourly_frame (slice_hourly h).

(** [hourly = data.get("hourly", {})], then the frame of the hourly tab. *)
Definition main_hourly (data : ForecastResponse) : exn + DataFrame :=
  hourly_projection (default ∅ (hourly data)).

(** The data-model invariant of an hourly section with horizon [n]: the
    arrays are aligned, timestamps are strings and bearings are numbers. *)
Definition is_str (v : value) : bool :=
  match v with VStr _ => true | _ => false end.

Definition is_number (v : value) : bool :=
  match v with VInt _ | VFloat _ | VBool _ => true | _ => false end.

Definition has_array (h : gmap string (list value)) (k : string)
    (n : nat) (ok : value → bool) : bool :=
  match h !! k with
  | Some l => (length l =? n)%nat && forallb ok l
  | None => false
  end.

(** An [int] outside the [small_int] range. *)
Definition big_int (v : value) : bool :=
  match v with
  | VInt z => negb ((-1000000000 <=? z) && (z <=? 1000000000))
  | _ => false
  end.

(** A bearing the label function is modelled faithfully on: a float, a
    bool or a [small_int]. *)
Definition is_bearing (v : value) : bool := is_number v && negb (big_int v).

(** [None], booleans and numbers: the scalars on which [len] raises. *)
Definition has_no_len (v : value) : bool :=
  match v with
  | VNone | VBool _ | VInt _ | VFloat _ => true
  | VStr _ => false
  end.

Definition aligned_hourly (h : gmap string (list value)) (n : nat) : bool :=
  has_array h "time" n is_str
  && has_array h "temperature_2m" n (λ _, true)
  && has_array h "wind_speed_10m" n (λ _, true)
  && has_array h "wind_direction_10m" n is_bearing
  && has_array h "precipitation_probability" n (λ _, true).

(** A sample hourly section with [n] aligned entries. *)
Definition hourly_example (n : nat) : gmap string (list value) :=
  {[ "time" := replicate n (VStr "2024-06-01T14:30");
     "temperature_2m" := replicate n (VFloat (25 # 2));
     "wind_speed_10m" := replicate n (VInt 20);
     "wind_direction_10m" := replicate n (VInt 90);
     "precipitation_probability" := replicate n (VInt 35) ]}.

(** The same section without its precipitation-probability array. *)
Definition hourly_no_precip (n : nat) : gmap string (list value) :=
  delete "precipitation_probability" (hourly_example n).

(** A two-entry section with a full timestamp and a bare time of day. *)
Definition hourly_split_example : gmap string (list value) :=
  <["time" := ([VStr "2024-06-01T14:30"; VStr "14:30"])]> (hourly_example 2).

(** The frame behind the two line charts of the hourly tab. *)
Definition chart_frame (c : HourlyColumns) : exn + DataFrame :=
  tijd ← mapM time_of_day (times c);
  pd_DataFrame
    [ ("Tijd", tijd); ("Temperatuur (°C)", temps c);
      ("Windsnelheid (km/h)", wind_speeds c) ].

(** The hourly tab builds the table frame, then the chart frame; an
    exception in the first leaves the second unbuilt. *)
Definition hourly_tab (h : gmap string (list value))
  : exn + (DataFrame * DataFrame) :=
  df_hourly ← hourly_frame (slice_hourly h);
  chart_df ← chart_frame (slice_hourly h);
  mret (df_hourly, chart_df).

(** ** Tabular projection (the 7-day tab of [main]) *)

(** The six arrays of the daily section, [daily.get(name, [])], unsliced. *)
Record DailyColumns : Type := {
  daily_times : list value;
  daily_max : list value;
  daily_min : list value;
  daily_precip : list value;
  daily_wind_max : list value;
  daily_wind_dir : list value
}.

Definition read_daily (d : gmap string (list value)) : DailyColumns :=
  {| daily_times := py_get d "time" [];
     daily_max := py_get d "temperature_2m_max" [];
     daily_min := py_get d "temperature_2m_min" [];
     daily_precip := py_get d "precipitation_sum" [];
     daily_wind_max := py_get d "wind_speed_10m_max" [];
     daily_wind_dir := py_get d "wind_direction_10m_dominant" [] |}.

Definition daily_frame (c : DailyColumns) : exn + DataFrame :=
  windrichting ← mapM direction_cell (daily_wind_dir c);
  pd_DataFrame
    [ ("Datum", daily_times c); ("Max (°C)", daily_max c);
      ("Min (°C)", daily_min c); ("Neerslag (mm)", daily_precip c);
      ("Max wind (km/h)", daily_wind_max c); ("Windrichting", windrichting) ].

Definition daily_projection (d : gmap string (list value)) : exn + DataFrame :=
  daily_frame (read_daily d).

(** What the right-hand column of the 7-day tab shows. *)
Inductive WindPanel : Type :=
  | WindChart
  | WindUnavailable.

(** [if daily_wind_max: ... else: st.info(...)]: a list is truthy when it
    is not empty. *)
Definition wind_panel (c : DailyColumns) : WindPanel :=
  match daily_wind_max c with
  | [] => WindUnavailable
  | _ :: _ => WindChart
  end.

(** The 7-day tab: the frame first, then the choice of wind panel. *)
Definition daily_tab (d : gmap string (list value))
  : exn + (DataFrame * WindPanel) :=
  df_daily ← daily_projection d;
  mret (df_daily, wind_panel (read_daily d)).

(** A sample daily section with [n] aligned entries. *)
Definition daily_example (n : nat) : gmap string (list value) :=
  {[ "time" := replicate n (VStr "2024-06-01");
     "temperature_2m_max" := replicate n (VFloat (43 # 2));
     "temperature_2m_min" := replicate n (VFloat (25 # 2));
     "precipitation_sum" := replicate n (VInt 0);
     "wind_speed_10m_max" := replicate n (VInt 20);
     "wind_direction_10m_dominant" := replicate n (VInt 270) ]}.

(** An hourly section whose third timestamp is [None]. *)
Definition hourly_null_time : gmap string (list value) :=
  <["time" := ([VStr "2024-06-01T00:00"; VStr "2024-06-01T01:00"; VNone])]>
    (hourly_example 3).

(** An hourly section whose second bearing is [None]. *)
Definition hourly_null_bearing : gmap string (list value) :=
  <["wind_direction_10m" := ([VInt 90; VNone; VInt 180])]> (hourly_example 3).

(** ** Weather client and its freshness cache *)

(** [VENLO_LAT], [VENLO_LON]; coordinates are cache keys, hence canonical
    rationals. *)
Definition VENLO_LAT : Qc := Q2Qc (513700 # 10000).
Definition VENLO_LON : Qc := Q2Qc (61681 # 10000).

(** [ttl=600], in seconds. *)
Definition ttl : Z := 600.

(** What the decorator stores: the return value and when it was stored.
    The return value is the decoded response, or [None] after a
    [RequestException]. *)
Record CacheEntry : Type := {
  stored_at : Z;
  cached : option ForecastResponse
}.

(** The state the client touches: the memo table of [st.cache_data] and
    the log of HTTP requests sent, newest first. *)
Record AppState : Type := {
  cache : gmap (Qc * Qc) CacheEntry;
  network_calls : list (Qc * Qc)
}.

(** The upstream service: what [requests.get(...).json()] yields for a
    request sent at a given time, [None] standing for any
    [RequestException]. *)
Definition Upstream : Type := Z → Qc → Qc → option ForecastResponse.

(** The undecorated body of [fetch_weather_data]: one HTTP request. The
    [except] branch returns [None]. *)
Definition fetch_body (up : Upstream) (now : Z) (lat lon : Qc) (s : AppState)
  : option ForecastResponse * AppState :=
  (up now lat lon,
   {| cache := cache s; network_calls := (lat, lon) :: network_calls s |}).

(** [fetch_weather_data(lat, lon)] as decorated: an entry younger than
    [ttl] is returned without running the body; otherwise the body runs and
    its result is stored under the key [(lat, lon)]. *)
Definition fetch_weather_data (up : Upstream) (now : Z) (lat lon : Qc)
    (s : AppState) : option ForecastResponse * AppState :=
  let miss :=
    let '(r, s') := fetch_body up now lat lon s in
    (r, {| cache := <[(lat, lon) := {| stored_at := now; cached := r |}]> (cache s');
           network_calls := network_calls s' |}) in
  match cache s !! (lat, lon) with
  | Some e => if now <? stored_at e + ttl then (cached e, s) else miss
  | None => miss
  end.

(** The key [(lat, lon)] has an entry younger than [ttl] at time [now]. *)
Definition fresh (s : AppState) (now : Z) (lat lon : Qc) : bool :=
  match cache s !! (lat, lon) with
  | Some e => now <? stored_at e + ttl
  | None => false
  end.

(** [fetch_weather_data.clear()] *)
Definition clear (s : AppState) : AppState :=
  {| cache := ∅; network_calls := network_calls s |}.

(** One run of [main] up to the fetch: a press of the refresh button
    clears the cache and reruns the script, which then fetches. *)
Definition main_fetch (up : Upstream) (now : Z) (pressed : bool) (s : AppState)
  : option ForecastResponse * AppState :=
  fetch_weather_data up now VENLO_LAT VENLO_LON (if pressed then clear s else s).

(** Streamlit runs [main] again on every interaction: the fetches of a
    series of runs without a press of the refresh button, at the given
    times, threaded through the state. *)
Fixpoint reruns (up : Upstream) (ts : list Z) (s : AppState)
  : list (option ForecastResponse) * AppState :=
  match ts with
  | [] => ([], s)
  | t :: ts =>
      let '(r, s1) := main_fetch up t false s in
      let '(rs, s2) := reruns up ts s1 in
      (r :: rs, s2)
  end.

(** * Properties *)

(** ** Lookup tables *)

Lemma codes_lookup (code : Z) :
  codes !! code = (list_to_map codes_items : gmap Z string) !! code.
Proof. by vm_compute codes. Qed.

Lemma known_codes_nodup : NoDup known_codes.
Proof. apply NoDup_ListNoDup. repeat constructor; vm_compute; intuition lia. Qed.

(** C8: [get_weather_emoji] is a total function on the integers that
    returns a glyph other than the fallback exactly on the 26 known codes,
    and the fallback glyph on every other integer. *)
Theorem get_weather_emoji_known_iff (code : Z) :
  known_codes
    = [0; 1; 2; 3; 45; 48; 51; 53; 55; 61; 63; 65; 66; 67; 71; 73; 75; 77;
       80; 81; 82; 85; 86; 95; 96; 99]
  ∧ (code ∈ known_codes ↔ get_weather_emoji code ≠ fallback_emoji)
  ∧ (code ∉ known_codes ↔ get_weather_emoji code = fallback_emoji).
Proof.
  assert (Hin : code ∈ known_codes → get_weather_emoji code ≠ fallback_emoji).
  { intros Hk. unfold known_codes in Hk. cbn in Hk.
    repeat (apply elem_of_cons in Hk as [->|Hk]); try by vm_compute.
    by apply elem_of_nil in Hk. }
  assert (Hout : code ∉ known_codes → get_weather_emoji code = fallback_emoji).
  { intros Hk. unfold get_weather_emoji. rewrite codes_lookup.
    by rewrite (not_elem_of_list_to_map_1 _ _ Hk). }
  split; [reflexivity|]. split; split; auto.
  - intros Hne. destruct (decide (code ∈ known_codes)); [done|]. by destruct Hne; auto.
  - intros Heq Hk. by apply Hin in Hk.
Qed.

Example py_round_ties :
  py_round <$> [1 # 2; 3 # 2; 5 # 2; -1 # 2; -3 # 2; 7 # 4; -7 # 4; 31 # 2]
  = [0; 2; 2; 0; -2; 2; -2; 16].
Proof. reflexivity. Qed.

(** [py_round] picks the integer [k] whenever the argument lies strictly
    within half a unit of it. *)
Lemma py_round_nearest (n : Z) (d : positive) (k : Z) :
  (2 * k - 1) * Zpos d < 2 * n < (2 * k + 1) * Zpos d →
  py_round (n # d) = k.
Proof.
  intros [Hlo Hhi]. unfold py_round, Qfloor. cbn [Qnum Qden].
  pose proof (Z.div_mod n (Zpos d) ltac:(lia)) as Hdm.
  pose proof (Z.mod_pos_bound n (Zpos d) ltac:(lia)) as Hmod.
  set (f := n / Zpos d) in *. set (r := n mod Zpos d) in *.
  destruct (Z.compare_spec (2 * n - 2 * f * Zpos d) (Zpos d)) as [He|Hl|Hg].
  - assert (f = k ∨ f + 1 = k) as [->| <-] by nia; nia.
  - nia.
  - nia.
Qed.

(** On an exact tie [py_round] returns the even neighbour. *)
Lemma py_round_tie (n : Z) (d : positive) (k : Z) :
  2 * n = (2 * k + 1) * Zpos d →
  py_round (n # d) = if Z.even k then k else k + 1.
Proof.
  intros Htie. unfold py_round, Qfloor. cbn [Qnum Qden].
  pose proof (Z.div_mod n (Zpos d) ltac:(lia)) as Hdm.
  pose proof (Z.mod_pos_bound n (Zpos d) ltac:(lia)) as Hmod.
  set (f := n / Zpos d) in *. set (r := n mod Zpos d) in *.
  assert (f = k) as -> by nia.
  destruct (Z.compare_spec (2 * n - 2 * k * Zpos d) (Zpos d)); [done|nia|nia].
Qed.

(** Bearings from 348.75 up to 360 fall in sector 0. *)
Lemma direction_index_wraps (b : Q) :
  (34875 # 100 <= b)%Q → (b <= 360 # 1)%Q → direction_index b = 0.
Proof.
  destruct b as [n d]. unfold Qle. cbn [Qnum Qden]. intros Hlo Hhi.
  unfold direction_index, sector_width, Qdiv, Qmult, Qinv. cbn [Qnum Qden].
  enough (py_round (n * 2 # d * 45) = 16) as -> by reflexivity.
  destruct (decide (2 * (n * 2) = (2 * 15 + 1) * Zpos (d * 45))) as [Htie|Hne].
  - by rewrite (py_round_tie _ _ 15 Htie).
  - apply py_round_nearest. lia.
Qed.

(** A non-negative index that hits the list does not raise. *)
Lemma py_list_getitem_hit {A} (l : list A) (i : Z) (x : A) :
  0 ≤ i → l !! Z.to_nat i = Some x → py_list_getitem l i = inr x.
Proof.
  intros Hi Hx. pose proof (lookup_lt_Some _ _ _ Hx) as Hlt.
  unfold py_list_getitem.
  destruct (Z.ltb_spec i 0) as [?|_]; [lia|].
  destruct (Z.ltb_spec i 0) as [?|_]; [lia|].
  destruct (Z.leb_spec (Z.of_nat (length l)) i) as [?|_]; [lia|].
  by rewrite Hx.
Qed.

(** Every bearing has a label: the index is always within the table. *)
Lemma direction_to_text_total (d : Q) :
  ∃ s, direction_to_text (VFloat d) = inr s ∧ s ∈ directions.
Proof.
  unfold direction_to_text. cbn [as_number mbind exn_bind].
  unfold direction_index.
  pose proof (Z.mod_pos_bound (py_round (d / sector_width)) 16 ltac:(lia)) as Hb.
  set (i := py_round (d / sector_width) mod 16) in *. clearbody i.
  destruct (directions !! Z.to_nat i) as [s|] eqn:Hs.
  - exists s. split; [apply py_list_getitem_hit; [lia|done]|].
    by eapply list_elem_of_lookup_2.
  - apply lookup_ge_None in Hs. cbn in Hs. lia.
Qed.

(** C2 (as the code has it): 11.24 maps to the first point "N" and 11.26 to
    the second point "NNO"; the exact boundary 11.25 is a tie, which Python's
    [round] sends to the even index 0, hence to "N"; every bearing from
    348.75 up to 360 wraps to "N". *)
Theorem direction_to_text_boundaries :
  direction_to_text (VFloat (1124 # 100)) = inr "N"
  ∧ direction_to_text (VFloat (1126 # 100)) = inr "NNO"
  ∧ direction_to_text (VFloat (1125 # 100)) = inr "N"
  ∧ ∀ b : Q, (34875 # 100 <= b)%Q → (b <= 360 # 1)%Q →
      direction_to_text (VFloat b) = inr "N".
Proof.
  repeat split; try reflexivity.
  intros b Hlo Hhi. unfold direction_to_text. cbn [as_number mbind exn_bind].
  by rewrite direction_index_wraps.
Qed.

(** C2 as stated fails at the exact boundary: 11.25 does not map to the
    second point. *)
Lemma direction_to_text_boundary_not_second :
  direction_to_text (VFloat (1125 # 100)) ≠ inr "NNO".
Proof. by vm_compute. Qed.

Lemma direction_to_text_boundaries_witness :
  direction_to_text (VFloat (350 # 1)) = inr "N".
Proof.
  apply (proj2 (proj2 (proj2 direction_to_text_boundaries)) (350 # 1));
    unfold Qle; simpl; lia.
Defined.

(** ** Shape normaliser *)

Lemma py_in_true {V} (k : string) (d : gmap string V) :
  py_in k d = true ↔ is_Some (d !! k).
Proof.
  unfold py_in. destruct (d !! k); split; intros H; done.
Qed.

Lemma py_in_false {V} (k : string) (d : gmap string V) :
  py_in k d = false ↔ d !! k = None.
Proof. unfold py_in. by destruct (d !! k). Qed.

(** The guarded subscript [current["windspeed"]] cannot raise. *)
Lemma is_legacy_windspeed (cur : gmap string value) :
  is_legacy cur = true →
  ∃ ws, cur !! "windspeed" = Some ws ∧ cur !! "wind_speed_10m" = None.
Proof.
  unfold is_legacy. intros [Hin Hout]%andb_true_iff.
  apply py_in_true in Hin as [ws Hws]. apply negb_true_iff, py_in_false in Hout.
  eauto.
Qed.

(** What the legacy branch leaves behind. *)
Lemma normalize_current_legacy (cur : gmap string value) (ws : value) :
  is_legacy cur = true → cur !! "windspeed" = Some ws →
  normalize_current cur =
    inr (<["relative_humidity_2m" := VNone]>
         (<["weather_code" := py_get cur "weathercode" (VInt 0)]>
          (<["temperature_2m" := py_get cur "temperature" (VInt 0)]>
           (<["wind_direction_10m" := py_get cur "winddirection" (VInt 0)]>
            (<["wind_speed_10m" := ws]> cur))))).
Proof.
  intros Hleg Hws. unfold normalize_current, py_getitem. rewrite Hleg, Hws.
  cbn [mbind exn_bind mret exn_ret]. unfold py_get.
  by rewrite !lookup_insert_ne by done.
Qed.

Lemma normalize_current_modern (cur : gmap string value) :
  is_legacy cur = false → normalize_current cur = inr cur.
Proof. unfold normalize_current. by intros ->. Qed.

(** A record that already has [wind_speed_10m] is left alone. *)
Lemma normalize_current_has_wind_speed (cur : gmap string value) :
  py_in "wind_speed_10m" cur = true → normalize_current cur = inr cur.
Proof.
  intros Hin. apply normalize_current_modern. unfold is_legacy.
  rewrite Hin. apply andb_false_r.
Qed.

(** The normaliser is idempotent on every record. *)
Lemma normalize_current_idempotent (cur cur' : gmap string value) :
  normalize_current cur = inr cur' → normalize_current cur' = inr cur'.
Proof.
  destruct (is_legacy cur) eqn:Hleg.
  - destruct (is_legacy_windspeed cur Hleg) as (ws & Hws & _).
    rewrite (normalize_current_legacy cur ws Hleg Hws). intros [= <-].
    apply normalize_current_has_wind_speed, py_in_true.
    rewrite !lookup_insert_ne by done. rewrite lookup_insert_eq. eauto.
  - rewrite (normalize_current_modern cur Hleg). intros [= <-].
    by apply normalize_current_modern.
Qed.

(** C4: the legacy-shaped record
    [{temperature: 12.5, windspeed: 20, winddirection: 90, weathercode: 3}]
    normalises without error to a record whose modern fields are
    [temperature_2m = 12.5], [wind_speed_10m = 20],
    [wind_direction_10m = 90], [weather_code = 3], with
    [relative_humidity_2m] set to [None]. *)
Theorem normalize_legacy_example :
  ∃ cur',
    normalize_current legacy_example = inr cur'
    ∧ cur' !! "temperature_2m" = Some (VFloat (25 # 2))
    ∧ cur' !! "wind_speed_10m" = Some (VInt 20)
    ∧ cur' !! "wind_direction_10m" = Some (VInt 90)
    ∧ cur' !! "weather_code" = Some (VInt 3)
    ∧ cur' !! "relative_humidity_2m" = Some VNone.
Proof.
  assert (Hleg : is_legacy legacy_example = true) by by vm_compute.
  assert (Hws : legacy_example !! "windspeed" = Some (VInt 20)) by by vm_compute.
  eexists. split; [exact (normalize_current_legacy _ _ Hleg Hws)|].
  by vm_compute.
Qed.

Lemma entirely_missing_spec (cur : gmap string value) (modern legacy : string) :
  entirely_missing cur modern legacy = true ↔
  cur !! modern = None ∧ cur !! legacy = None.
Proof.
  unfold entirely_missing.
  by rewrite andb_true_iff, !negb_true_iff, !py_in_false.
Qed.

(** Reading a field off the record the legacy branch leaves behind. *)
Ltac read_through_inserts :=
  unfold read_current, py_get; cbn [temp wind_speed wind_dir weather_code humidity];
  repeat first [ rewrite lookup_insert_eq | rewrite lookup_insert_ne by done ].

(** C5: normalising a current-conditions record never raises, whatever
    keys the record has; and each of temperature, wind speed, wind bearing
    and condition code is read as the integer 0 when the record has neither
    its modern nor its legacy name. Together with the section lookup this
    makes the whole path from the response to the displayed scalars
    exception-free. *)
Theorem normalize_current_total (cur : gmap string value) :
  ∃ cur',
    normalize_current cur = inr cur'
    ∧ (entirely_missing cur "temperature_2m" "temperature" = true →
       temp (read_current cur') = VInt 0)
    ∧ (entirely_missing cur "wind_speed_10m" "windspeed" = true →
       wind_speed (read_current cur') = VInt 0)
    ∧ (entirely_missing cur "wind_direction_10m" "winddirection" = true →
       wind_dir (read_current cur') = VInt 0)
    ∧ (entirely_missing cur "weather_code" "weathercode" = true →
       weather_code (read_current cur') = VInt 0)
    ∧ (∀ data, select_current data = cur →
       current_conditions data = inr (read_current cur')).
Proof.
  destruct (is_legacy cur) eqn:Hleg.
  - destruct (is_legacy_windspeed cur Hleg) as (ws & Hws & Hnone).
    eexists. split; [exact (normalize_current_legacy cur ws Hleg Hws)|].
    repeat split.
    + intros [_ Hm]%entirely_missing_spec. read_through_inserts. by rewrite Hm.
    + intros [_ Hm]%entirely_missing_spec. congruence.
    + intros [_ Hm]%entirely_missing_spec. read_through_inserts. by rewrite Hm.
    + intros [_ Hm]%entirely_missing_spec. read_through_inserts. by rewrite Hm.
    + intros data Hsel. unfold current_conditions.
      by rewrite Hsel, (normalize_current_legacy cur ws Hleg Hws).
  - exists cur. split; [by apply normalize_current_modern|].
    repeat split;
      try (intros [Hm _]%entirely_missing_spec; read_through_inserts; by rewrite Hm).
    intros data Hsel. unfold current_conditions.
    by rewrite Hsel, (normalize_current_modern cur Hleg).
Qed.

Lemma normalize_current_total_witness :
  ∃ cur',
    normalize_current ∅ = inr cur'
    ∧ temp (read_current cur') = VInt 0
    ∧ wind_speed (read_current cur') = VInt 0
    ∧ wind_dir (read_current cur') = VInt 0
    ∧ weather_code (read_current cur') = VInt 0.
Proof.
  destruct (normalize_current_total ∅) as (cur' & Hn & Ht & Hs & Hd & Hc & _).
  exists cur'. split; [exact Hn|].
  repeat split; [apply Ht|apply Hs|apply Hd|apply Hc]; reflexivity.
Defined.

(** C9: a record that carries the modern field names passes through the
    normaliser unchanged. *)
Theorem normalize_canonical_unchanged (cur : gmap string value) :
  is_canonical cur = true → normalize_current cur = inr cur.
Proof.
  unfold is_canonical, modern_fields. cbn [forallb].
  rewrite !andb_true_iff. intros (_ & _ & Hws & _).
  by apply normalize_current_has_wind_speed.
Qed.

Lemma normalize_canonical_unchanged_witness :
  is_canonical modern_example = true
  ∧ normalize_current modern_example = inr modern_example.
Proof.
  split; [reflexivity|]. apply (normalize_canonical_unchanged modern_example).
  reflexivity.
Defined.

(** C10: for a legacy-shaped record the normaliser stores [None] as the
    humidity, and the value read for display, [... or 0], is the integer 0:
    the same value that is read from a record whose measured humidity is 0. *)
Theorem legacy_humidity_reads_zero (cur : gmap string value) :
  is_legacy cur = true →
  ∃ cur',
    normalize_current cur = inr cur'
    ∧ cur' !! "relative_humidity_2m" = Some VNone
    ∧ humidity (read_current cur') = VInt 0
    ∧ ∀ m : gmap string value,
        m !! "relative_humidity_2m" = Some (VInt 0) →
        humidity (read_current m) = humidity (read_current cur').
Proof.
  intros Hleg. destruct (is_legacy_windspeed cur Hleg) as (ws & Hws & _).
  eexists. split; [exact (normalize_current_legacy cur ws Hleg Hws)|].
  split; [by rewrite lookup_insert_eq|].
  split; [by read_through_inserts|].
  intros m Hm. read_through_inserts. by rewrite Hm.
Qed.

Lemma legacy_humidity_reads_zero_witness :
  is_legacy legacy_example = true
  ∧ ∃ cur',
      normalize_current legacy_example = inr cur'
      ∧ humidity (read_current cur') = VInt 0
      ∧ humidity (read_current modern_example) = humidity (read_current cur').
Proof.
  split; [reflexivity|].
  destruct (legacy_humidity_reads_zero legacy_example) as (cur' & Hn & _ & Hh & Hsame);
    [reflexivity|].
  exists cur'. split; [exact Hn|]. split; [exact Hh|].
  apply Hsame. reflexivity.
Defined.

(** ** Tabular projection *)

Lemma substring_length (s : string) (n m : nat) :
  String.length (substring n m s) = (m `min` (String.length s - n))%nat.
Proof.
  revert n m.
  induction s as [|c s IH]; intros [|n] [|m];
    cbn [substring String.length]; rewrite ?IH; lia.
Qed.

(** A comprehension whose body succeeds on every element yields a list of
    the same length. *)
Lemma mapM_inr_length {A B} (f : A → exn + B) (l : list A) :
  Forall (λ x, ∃ y, f x = inr y) l →
  ∃ k, mapM f l = inr k ∧ length k = length l.
Proof.
  induction 1 as [|x l [y Hy] _ (k & Hk & Hlen)]; [by exists []|].
  exists (y :: k). cbn. rewrite Hy. cbn. rewrite Hk. cbn.
  by rewrite Hlen.
Qed.

Lemma time_of_day_str (t : string) :
  time_of_day (VStr t)
  = inr (VStr (if (10 <? String.length t)%nat then substring 11 5 t else t)).
Proof.
  unfold time_of_day, py_len, py_slice. cbn [mbind exn_bind].
  destruct (10 <? String.length t)%nat; reflexivity.
Qed.

Lemma direction_to_text_number (v : value) :
  is_number v = true → ∃ s, direction_to_text v = inr s ∧ s ∈ directions.
Proof.
  destruct v as [|b|z|q|s]; try done; intros _.
  - apply (direction_to_text_total (inject_Z (if b then 1 else 0))).
  - apply (direction_to_text_total (inject_Z z)).
  - apply direction_to_text_total.
Qed.

Lemma has_array_spec (h : gmap string (list value)) (k : string) (n : nat)
    (ok : value → bool) :
  has_array h k n ok = true →
  ∃ l, h !! k = Some l ∧ length l = n ∧ Forall (λ v, ok v = true) l.
Proof.
  unfold has_array. destruct (h !! k) as [l|]; [|done].
  intros [Hlen Hok]%andb_true_iff. exists l. split; [done|].
  split; [by apply Nat.eqb_eq|]. apply Forall_forall. intros v Hv.
  rewrite forallb_forall in Hok. by apply Hok, list_elem_of_In.
Qed.

(** Absent precipitation probabilities default to 48 [None]s, whatever the
    length of the other arrays. *)
Lemma precip_probs_absent (h : gmap string (list value)) :
  h !! "precipitation_probability" = None →
  precip_probs (slice_hourly h) = replicate 48 VNone.
Proof. intros Hp. cbn. unfold py_get. rewrite Hp. cbn [default]. reflexivity. Qed.

(** C3 (the code at a failing input): a section with 10 timestamped entries
    and no precipitation-probability array gets a precipitation column of 48
    [None]s next to 10-entry columns, and building the frame raises
    [ValueError]. *)
Theorem precip_default_ignores_horizon :
  hourly_no_precip 10 !! "precipitation_probability" = None
  ∧ length (times (slice_hourly (hourly_no_precip 10))) = 10%nat
  ∧ precip_probs (slice_hourly (hourly_no_precip 10)) = replicate 48 VNone
  ∧ hourly_projection (hourly_no_precip 10) = inl ValueError.
Proof. repeat split; by vm_compute. Qed.

Lemma time_of_day_ok (v : value) :
  is_str v = true → ∃ y, time_of_day v = inr y.
Proof. destruct v; try done. intros _. rewrite time_of_day_str. eauto. Qed.

Lemma date_of_ok (v : value) :
  is_str v = true → ∃ y, date_of v = inr y.
Proof. destruct v; try done. intros _. cbn. eauto. Qed.

Lemma direction_cell_ok (v : value) :
  is_number v = true → ∃ y, direction_cell v = inr y.
Proof.
  intros (s & Hs & _)%direction_to_text_number.
  unfold direction_cell. rewrite Hs. cbn. eauto.
Qed.

(** A frame built from columns of one length has that many rows. *)
Lemma pd_DataFrame_aligned (cols : list (string * list value)) (n : nat) :
  cols ≠ [] → Forall (λ kc, length kc.2 = n) cols →
  pd_DataFrame cols = inr cols ∧ n_rows cols = n.
Proof.
  destruct cols as [|[k c] rest]; [done|]. intros _ Hall.
  apply Forall_cons in Hall as [Hc Hrest]. cbn in Hc. cbn [pd_DataFrame n_rows].
  split; [|done].
  replace (forallb (λ kc, (length kc.2 =? length c)%nat) rest) with true; [done|].
  symmetry. apply forallb_forall. intros kc Hin%list_elem_of_In.
  rewrite Forall_forall in Hrest. apply Nat.eqb_eq. rewrite Hc. by apply Hrest.
Qed.

(** The sliced columns of an aligned section. *)
Lemma slice_hourly_aligned (h : gmap string (list value)) (n : nat) :
  aligned_hourly h n = true →
  let c := slice_hourly h in
  length (times c) = (48 `min` n)%nat
  ∧ length (temps c) = (48 `min` n)%nat
  ∧ length (wind_speeds c) = (48 `min` n)%nat
  ∧ length (wind_dirs c) = (48 `min` n)%nat
  ∧ length (precip_probs c) = (48 `min` n)%nat
  ∧ Forall (λ v, is_str v = true) (times c)
  ∧ Forall (λ v, is_number v = true) (wind_dirs c).
Proof.
  unfold aligned_hourly. rewrite !andb_true_iff.
  intros ((((Ht & Hte) & Hws) & Hwd) & Hpp).
  apply has_array_spec in Ht as (lt & Ht & Hlt & Hstr).
  apply has_array_spec in Hte as (lte & Hte & Hlte & _).
  apply has_array_spec in Hws as (lws & Hws & Hlws & _).
  apply has_array_spec in Hwd as (lwd & Hwd & Hlwd & Hnum).
  apply has_array_spec in Hpp as (lpp & Hpp & Hlpp & _).
  unfold slice_hourly, py_get.
  cbn [times temps wind_speeds wind_dirs precip_probs].
  rewrite Ht, Hte, Hws, Hwd, Hpp. cbn [from_option id].
  rewrite !length_take, Hlt, Hlte, Hlws, Hlwd, Hlpp.
  repeat split; try by apply Forall_take.
  apply Forall_take. eapply Forall_impl; [exact Hnum|].
  intros v Hv. unfold is_bearing in Hv. by apply andb_true_iff in Hv as [? _].
Qed.

(** Columns of one length, with string timestamps and numeric bearings,
    make a frame of that many rows. *)
Lemma hourly_frame_rows (c : HourlyColumns) (m : nat) :
  length (times c) = m → length (temps c) = m → length (wind_speeds c) = m →
  length (wind_dirs c) = m → length (precip_probs c) = m →
  Forall (λ v, is_str v = true) (times c) →
  Forall (λ v, is_number v = true) (wind_dirs c) →
  ∃ df, hourly_frame c = inr df
        ∧ n_rows df = m
        ∧ Forall (λ kc, length kc.2 = m) df.
Proof.
  intros Ht Hte Hws Hwd Hpp Hstr Hnum. unfold hourly_frame.
  destruct (mapM_inr_length time_of_day (times c)) as (tijd & -> & Htijd).
  { eapply Forall_impl; [exact Hstr|]. apply time_of_day_ok. }
  destruct (mapM_inr_length date_of (times c)) as (datum & -> & Hdatum).
  { eapply Forall_impl; [exact Hstr|]. apply date_of_ok. }
  destruct (mapM_inr_length direction_cell (wind_dirs c)) as (wr & -> & Hwr).
  { eapply Forall_impl; [exact Hnum|]. apply direction_cell_ok. }
  cbn [mbind exn_bind].
  match goal with |- ∃ df, pd_DataFrame ?cols = _ ∧ _ =>
    destruct (pd_DataFrame_aligned cols m) as [Hdf Hrows];
      [done| |exists cols; split; [exact Hdf|split; [exact Hrows|]]]
  end.
  all: repeat (apply Forall_cons; split); try apply Forall_nil; cbn [snd]; lia.
Qed.

(** On a section that carries all five arrays, aligned with horizon [n],
    with string timestamps and bearings that are floats or [small_int]s,
    the hourly projection builds a frame of [min 48 n] rows, every column
    having that length. *)
Lemma hourly_projection_rows (h : gmap string (list value)) (n : nat) :
  aligned_hourly h n = true →
  ∃ df, hourly_projection h = inr df
        ∧ n_rows df = (48 `min` n)%nat
        ∧ Forall (λ kc, length kc.2 = (48 `min` n)%nat) df.
Proof.
  intros Hal.
  destruct (slice_hourly_aligned h n Hal) as (Ht & Hte & Hws & Hwd & Hpp & Hstr & Hnum).
  by apply hourly_frame_rows.
Qed.

(** C6 (the code at a failing input): the section with 10 timestamped
    entries and no precipitation-probability array has 10 entries in each
    of its four arrays, yet the projection yields no frame at all, let
    alone one of 10 rows: it raises [ValueError]. With the array present
    the same 10 entries give 10 rows and 72 entries give 48; without it 72
    entries still give 48. *)
Theorem hourly_projection_ten_entries_no_rows :
  length (py_get (hourly_no_precip 10) "time" []) = 10%nat
  ∧ length (py_get (hourly_no_precip 10) "temperature_2m" []) = 10%nat
  ∧ length (py_get (hourly_no_precip 10) "wind_speed_10m" []) = 10%nat
  ∧ length (py_get (hourly_no_precip 10) "wind_direction_10m" []) = 10%nat
  ∧ hourly_projection (hourly_no_precip 10) = inl ValueError
  ∧ (∀ df, hourly_projection (hourly_no_precip 10) ≠ inr df)
  ∧ (∃ df, hourly_projection (hourly_example 10) = inr df ∧ n_rows df = 10%nat)
  ∧ (∃ df, hourly_projection (hourly_example 72) = inr df ∧ n_rows df = 48%nat)
  ∧ (∃ df, hourly_projection (hourly_no_precip 72) = inr df ∧ n_rows df = 48%nat).
Proof.
  assert (Hraise : hourly_projection (hourly_no_precip 10) = inl ValueError)
    by by vm_compute.
  split_and!; try (by vm_compute); try (intros df Hdf; by rewrite Hraise in Hdf).
  - destruct (hourly_projection_rows (hourly_example 10) 10) as (df & Hdf & Hn & _);
      [by vm_compute|]. by exists df.
  - destruct (hourly_projection_rows (hourly_example 72) 72) as (df & Hdf & Hn & _);
      [by vm_compute|]. by exists df.
  - destruct (hourly_projection (hourly_no_precip 72)) as [e|df] eqn:Hdf;
      [by vm_compute in Hdf|].
    exists df. split; [done|]. vm_compute in Hdf. by injection Hdf as <-.
Qed.

(** A successful comprehension pairs every element with its image. *)
Lemma mapM_inr_inv {A B} (f : A → exn + B) (l : list A) (k : list B) :
  mapM f l = inr k → Forall2 (λ x y, f x = inr y) l k.
Proof.
  revert k. induction l as [|x l IH]; intros k; cbn.
  - intros [= <-]. constructor.
  - destruct (f x) as [e|y] eqn:Hy; cbn; [done|].
    destruct (mapM f l) as [e|k'] eqn:Hk; cbn; [done|].
    intros [= <-]. constructor; [done|]. by apply IH.
Qed.

(** The two slices of a timestamp string, character by character. *)
Lemma timestamp_slices (t : string) :
  let d := substring 0 10 t in
  let tm := if (10 <? String.length t)%nat then substring 11 5 t else t in
  ((10 < String.length t)%nat →
   String.length d = 10%nat
   ∧ (∀ j, (j < 10)%nat → String.get j d = String.get j t)
   ∧ String.length tm = (5 `min` (String.length t - 11))%nat
   ∧ (∀ j, (j < 5)%nat → String.get j tm = String.get (11 + j) t))
  ∧ ((String.length t ≤ 10)%nat → tm = t).
Proof.
  cbv zeta. split.
  - intros Hlen. apply Nat.ltb_lt in Hlen as Hb. rewrite Hb.
    rewrite !substring_length. repeat split; try lia.
    + intros j Hj. rewrite (substring_correct1 t 0 10 j Hj). f_equal. lia.
    + intros j Hj. rewrite (substring_correct1 t 11 5 j Hj). f_equal. lia.
  - intros Hlen. apply Nat.ltb_ge in Hlen. by rewrite Hlen.
Qed.

(** The time and date columns of a frame the projection has built. *)
Lemma hourly_projection_time_columns (h : gmap string (list value))
    (df : DataFrame) :
  hourly_projection h = inr df →
  ∃ tijd datum,
    column df "Tijd" = Some tijd
    ∧ column df "Datum" = Some datum
    ∧ Forall2 (λ x y, time_of_day x = inr y) (take 48 (py_get h "time" [])) tijd
    ∧ Forall2 (λ x y, date_of x = inr y) (take 48 (py_get h "time" [])) datum.
Proof.
  intros Hdf. unfold hourly_projection, hourly_frame in Hdf.
  cbn [slice_hourly times] in Hdf.
  destruct (mapM time_of_day _) as [e|tijd] eqn:Ht; [done|].
  destruct (mapM date_of _) as [e|datum] eqn:Hd; [done|].
  destruct (mapM direction_cell _) as [e|wr]; [done|].
  cbn [mbind exn_bind] in Hdf.
  destruct (pd_DataFrame _) as [e|df'] eqn:Hpd; [done|].
  injection Hdf as <-.
  cbn [pd_DataFrame] in Hpd. destruct (forallb _ _); [|done].
  injection Hpd as <-.
  exists tijd, datum. repeat split; by apply mapM_inr_inv.
Qed.

(** C7: in every frame the hourly projection builds, row [i] of the date
    column and of the time column are the two slices of timestamp [i]: for
    a timestamp string [t] of more than 10 characters the date is [t[:10]],
    its first 10 characters, and the time is [t[11:16]], the (at most five)
    characters from offset 11 up to, not including, offset 16; a string of
    at most 10 characters is itself the time field. The frame is built on
    every aligned section. The section with timestamps
    ["2024-06-01T14:30"] and ["14:30"] gets the dates ["2024-06-01"] and
    ["14:30"] and the times ["14:30"] and ["14:30"]. *)
Theorem hourly_projection_splits_timestamps :
  (∀ (h : gmap string (list value)) (df : DataFrame),
     hourly_projection h = inr df →
     ∃ tijd datum,
       column df "Tijd" = Some tijd
       ∧ column df "Datum" = Some datum
       ∧ ∀ (i : nat) (t : string),
           (i < 48)%nat → py_get h "time" [] !! i = Some (VStr t) →
           ∃ d tm : string,
             datum !! i = Some (VStr d)
             ∧ tijd !! i = Some (VStr tm)
             ∧ ((10 < String.length t)%nat →
                String.length d = 10%nat
                ∧ (∀ j, (j < 10)%nat → String.get j d = String.get j t)
                ∧ String.length tm = (5 `min` (String.length t - 11))%nat
                ∧ (∀ j, (j < 5)%nat → String.get j tm = String.get (11 + j) t))
             ∧ ((String.length t ≤ 10)%nat → tm = t))
  ∧ (∀ (h : gmap string (list value)) (n : nat),
       aligned_hourly h n = true → ∃ df, hourly_projection h = inr df)
  ∧ ∃ df,
      hourly_projection hourly_split_example = inr df
      ∧ column df "Datum" = Some [VStr "2024-06-01"; VStr "14:30"]
      ∧ column df "Tijd" = Some [VStr "14:30"; VStr "14:30"].
Proof.
  split; [|split].
  - intros h df (tijd & datum & Htijd & Hdatum & Ht & Hd)%hourly_projection_time_columns.
    exists tijd, datum. split; [exact Htijd|]. split; [exact Hdatum|].
    intros i t Hi Hlook.
    assert (Hx : take 48 (py_get h "time" []) !! i = Some (VStr t))
      by by rewrite lookup_take_lt.
    destruct (Forall2_lookup_l _ _ _ _ _ Ht Hx) as (ytm & Hytm & Htm).
    destruct (Forall2_lookup_l _ _ _ _ _ Hd Hx) as (yd & Hyd & Hdd).
    rewrite time_of_day_str in Htm. injection Htm as <-.
    cbn in Hdd. injection Hdd as <-.
    eexists _, _. split; [exact Hyd|]. split; [exact Hytm|].
    apply timestamp_slices.
  - intros h n Hal.
    destruct (hourly_projection_rows h n Hal) as (df & Hdf & _). by exists df.
  - destruct (hourly_projection hourly_split_example) as [e|df] eqn:Hdf;
      [by vm_compute in Hdf|].
    exists df. split; [done|]. vm_compute in Hdf. injection Hdf as <-.
    by vm_compute.
Qed.

Lemma hourly_projection_splits_timestamps_witness :
  ∃ df tijd datum,
    hourly_projection hourly_split_example = inr df
    ∧ column df "Tijd" = Some tijd
    ∧ column df "Datum" = Some datum
    ∧ tijd !! 1%nat = Some (VStr "14:30")
    ∧ ∃ d, datum !! 0%nat = Some (VStr d) ∧ String.length d = 10%nat.
Proof.
  destruct (hourly_projection hourly_split_example) as [e|df] eqn:Hdf;
    [vm_compute in Hdf; discriminate Hdf|].
  destruct (proj1 hourly_projection_splits_timestamps _ df Hdf)
    as (tijd & datum & Htijd & Hdatum & Hcells).
  exists df, tijd, datum. split; [reflexivity|].
  split; [exact Htijd|]. split; [exact Hdatum|]. split.
  - destruct (Hcells 1%nat "14:30") as (d & tm & _ & Htm & _ & Hshort);
      [lia|reflexivity|].
    rewrite Htm. f_equal. f_equal. apply Hshort. vm_compute. lia.
  - destruct (Hcells 0%nat "2024-06-01T14:30") as (d & tm & Hd & _ & Hlong & _);
      [lia|reflexivity|].
    exists d. split; [exact Hd|]. apply Hlong. vm_compute. lia.
Defined.

(** The projection on a two-entry section, column by column. *)
Example hourly_projection_two :
  hourly_projection (hourly_example 2)
  = inr [ ("Tijd", [VStr "14:30"; VStr "14:30"]);
          ("Datum", [VStr "2024-06-01"; VStr "2024-06-01"]);
          ("Temp (°C)", [VFloat (25 # 2); VFloat (25 # 2)]);
          ("Wind (km/h)", [VInt 20; VInt 20]);
          ("Windrichting", [VStr "O"; VStr "O"]);
          ("Neerslag %", [VInt 35; VInt 35]) ].
Proof. by vm_compute. Qed.

(** ** Weather client *)

Section client.
Variable up : Upstream.

(** A call that finds a fresh entry is a pure cache read: it returns the
    stored value and leaves the whole state, request log included, as it
    was. *)
Lemma fetch_hit (s : AppState) (now : Z) (lat lon : Qc) (e : CacheEntry) :
  cache s !! (lat, lon) = Some e → now < stored_at e + ttl →
  fetch_weather_data up now lat lon s = (cached e, s).
Proof.
  intros He Hnow. unfold fetch_weather_data. rewrite He.
  by destruct (Z.ltb_spec now (stored_at e + ttl)); [|lia].
Qed.

(** A call that finds no fresh entry sends exactly one request and stores
    what came back, stamped with the time of the call. *)
Lemma fetch_miss (s : AppState) (now : Z) (lat lon : Qc) :
  fresh s now lat lon = false →
  fetch_weather_data up now lat lon s
  = (up now lat lon,
     {| cache := <[(lat, lon) := {| stored_at := now;
                                    cached := up now lat lon |}]> (cache s);
        network_calls := (lat, lon) :: network_calls s |}).
Proof.
  unfold fresh, fetch_weather_data, fetch_body.
  destruct (cache s !! (lat, lon)) as [e|]; [|done]. by intros ->.
Qed.

Lemma fresh_clear (s : AppState) (now : Z) (lat lon : Qc) :
  fresh (clear s) now lat lon = false.
Proof. unfold fresh, clear. cbn. by rewrite lookup_empty. Qed.

(** Whatever the state, a call sends at most one request. *)
Lemma fetch_at_most_one_call (s : AppState) (now : Z) (lat lon : Qc) :
  let s' := (fetch_weather_data up now lat lon s).2 in
  network_calls s' = network_calls s
  ∨ network_calls s' = (lat, lon) :: network_calls s.
Proof.
  destruct (fresh s now lat lon) eqn:Hf.
  - left. unfold fresh in Hf. destruct (cache s !! (lat, lon)) as [e|] eqn:He; [|done].
    rewrite (fetch_hit s now lat lon e He); [done|lia].
  - right. by rewrite (fetch_miss s now lat lon Hf).
Qed.

(** C1: take a call at time [t1] that has to go to the network, and a
    second call with the same coordinates at a time [t2] less than [ttl]
    = 600 seconds after it. The first call sends exactly one request; the
    second returns the value the first one returned and changes nothing,
    so it sends none. After [clear], a call at the same time [t2], still
    inside the window, sends a new request and returns its result. *)
Theorem fetch_weather_data_cached (s : AppState) (lat lon : Qc) (t1 t2 : Z) :
  fresh s t1 lat lon = false → t2 < t1 + ttl →
  let '(r1, s1) := fetch_weather_data up t1 lat lon s in
  let '(r2, s2) := fetch_weather_data up t2 lat lon s1 in
  let '(r3, s3) := fetch_weather_data up t2 lat lon (clear s2) in
  r1 = up t1 lat lon
  ∧ network_calls s1 = (lat, lon) :: network_calls s
  ∧ r2 = r1
  ∧ s2 = s1
  ∧ fresh s2 t2 lat lon = true
  ∧ r3 = up t2 lat lon
  ∧ network_calls s3 = (lat, lon) :: network_calls s2.
Proof.
  intros Hstale Hwin. rewrite (fetch_miss s t1 lat lon Hstale).
  set (e := {| stored_at := t1; cached := up t1 lat lon |}).
  set (s1 := {| cache := <[(lat, lon) := e]> (cache s);
                network_calls := (lat, lon) :: network_calls s |}).
  assert (He : cache s1 !! (lat, lon) = Some e) by apply lookup_insert_eq.
  rewrite (fetch_hit s1 t2 lat lon e He Hwin).
  rewrite (fetch_miss (clear s1) t2 lat lon (fresh_clear s1 t2 lat lon)).
  repeat split. unfold fresh. rewrite He. cbn. lia.
Qed.

(** The refresh button of [main]: the run that follows a press sends a
    request even when the cache held a fresh entry. *)
Lemma main_fetch_refresh (s : AppState) (now : Z) :
  main_fetch up now true s
  = (up now VENLO_LAT VENLO_LON,
     {| cache := {[ (VENLO_LAT, VENLO_LON) :=
                      {| stored_at := now;
                         cached := up now VENLO_LAT VENLO_LON |} ]};
        network_calls := (VENLO_LAT, VENLO_LON) :: network_calls s |}).
Proof.
  unfold main_fetch. by rewrite (fetch_miss _ _ _ _ (fresh_clear s now _ _)).
Qed.

(** Without a press, a run of [main] inside the window reads the cache. *)
Lemma main_fetch_rerun (s : AppState) (now : Z) (e : CacheEntry) :
  cache s !! (VENLO_LAT, VENLO_LON) = Some e → now < stored_at e + ttl →
  main_fetch up now false s = (cached e, s).
Proof. apply fetch_hit. Qed.
End client.

(** An upstream that is down, and the state of a process that has not
    fetched yet. *)
Lemma fetch_weather_data_cached_witness :
  let up : Upstream := λ _ _ _, None in
  let s0 := {| cache := ∅; network_calls := [] |} in
  let '(r1, s1) := fetch_weather_data up 0 VENLO_LAT VENLO_LON s0 in
  let '(r2, s2) := fetch_weather_data up 599 VENLO_LAT VENLO_LON s1 in
  r2 = r1 ∧ s2 = s1 ∧ network_calls s2 = [(VENLO_LAT, VENLO_LON)].
Proof.
  intros up s0.
  pose proof (fetch_weather_data_cached up s0 VENLO_LAT VENLO_LON 0 599
                ltac:(reflexivity) ltac:(reflexivity)) as H.
  destruct (fetch_weather_data up 0 VENLO_LAT VENLO_LON s0) as [r1 s1].
  destruct (fetch_weather_data up 599 VENLO_LAT VENLO_LON s1) as [r2 s2].
  destruct (fetch_weather_data up 599 VENLO_LAT VENLO_LON (clear s2)) as [r3 s3].
  destruct H as (_ & Hcalls & Hr & Hs & _). subst s2.
  repeat split; [exact Hr|exact Hcalls].
Defined.

(** * Further properties of the code *)

(** ** Rounding and compass labels *)

(** [py_round] in terms of a quotient and remainder of the fraction. *)
Lemma py_round_char (n : Z) (d : positive) (k r : Z) :
  n = k * Zpos d + r → 0 ≤ r < Zpos d →
  py_round (n # d) =
    match 2 * r ?= Zpos d with
    | Lt => k
    | Gt => k + 1
    | Eq => if Z.even k then k else k + 1
    end.
Proof.
  intros Hn Hr. unfold py_round, Qfloor. cbn [Qnum Qden].
  assert (Hk : n / Zpos d = k).
  { symmetry. apply (Z.div_unique_pos n (Zpos d) k r); lia. }
  rewrite Hk. replace (2 * n - 2 * k * Zpos d) with (2 * r) by lia.
  reflexivity.
Qed.

(** Two fractions of equal value round alike, and adding an even integer
    to the value adds it to the rounding. *)
Lemma py_round_shift (n n' : Z) (d d' : positive) (m : Z) :
  Z.even m = true →
  n' * Zpos d = (n + m * Zpos d) * Zpos d' →
  py_round (n' # d') = py_round (n # d) + m.
Proof.
  intros Hm Heq.
  pose proof (Z.div_mod n (Zpos d) ltac:(lia)) as Hdm.
  pose proof (Z.mod_pos_bound n (Zpos d) ltac:(lia)) as Hmod.
  set (q := n / Zpos d) in *. set (r := n mod Zpos d) in *.
  set (r' := n' - (q + m) * Zpos d').
  assert (Hr' : r' * Zpos d = r * Zpos d') by (unfold r'; nia).
  assert (Hb' : 0 ≤ r' < Zpos d') by nia.
  rewrite (py_round_char n d q r) by lia.
  rewrite (py_round_char n' d' (q + m) r') by (unfold r'; lia).
  rewrite Z.even_add, Hm.
  assert (Hcmp : (2 * r' ?= Zpos d') = (2 * r ?= Zpos d)).
  { destruct (Z.compare_spec (2 * r) (Zpos d)) as [He|Hl|Hg].
    - apply Z.compare_eq_iff. nia.
    - apply Z.compare_lt_iff. nia.
    - apply Z.compare_gt_iff. nia. }
  rewrite Hcmp. destruct (2 * r ?= Zpos d); try lia.
  destruct (Z.even q); cbn; lia.
Qed.

(** In exact arithmetic a full turn leaves the sector index unchanged. *)
Lemma direction_index_full_turn (n : Z) (d : positive) :
  direction_index (n + 360 * Zpos d # d) = direction_index (n # d).
Proof.
  unfold direction_index, sector_width, Qdiv, Qmult, Qinv. cbn [Qnum Qden].
  rewrite (py_round_shift (n * 2) _ (d * 45) _ 16 eq_refl).
  - rewrite Z.add_mod by lia. cbn. rewrite Z.add_0_r. apply Z.mod_mod. lia.
  - rewrite !Pos2Z.inj_mul. ring.
Qed.

(** X1: the label is periodic in the bearing: a whole bearing and the
    same bearing one full turn of 360 degrees further on get the same
    label. *)
Theorem direction_to_text_periodic (d : Z) :
  small_int d →
  direction_to_text (VInt (d + 360)) = direction_to_text (VInt d).
Proof.
  intros _. unfold direction_to_text. cbn [as_number mbind exn_bind].
  f_equal. unfold inject_Z.
  rewrite <- (direction_index_full_turn d 1). reflexivity.
Qed.

Lemma direction_to_text_periodic_witness :
  direction_to_text (VInt (350 + 360)) = direction_to_text (VInt 350).
Proof. apply (direction_to_text_periodic 350). unfold small_int. lia. Defined.

(** The sector index of a whole bearing, in integer arithmetic. *)
Lemma direction_index_int (d : Z) :
  direction_index (inject_Z d) = ((4 * d + 45) / 90) mod 16.
Proof.
  unfold direction_index, sector_width, Qdiv, Qmult, Qinv, inject_Z.
  cbn [Qnum Qden]. f_equal.
  pose proof (Z.div_mod (d * 2) 45 ltac:(lia)) as Hdm.
  pose proof (Z.mod_pos_bound (d * 2) 45 ltac:(lia)) as Hmod.
  set (q := d * 2 / 45) in *. set (r := (d * 2) mod 45) in *.
  rewrite (py_round_char (d * 2) (1 * 45) q r) by lia.
  change (Zpos (1 * 45)) with 45.
  destruct (Z.compare_spec (2 * r) 45) as [He|Hl|Hg]; [lia| |].
  - apply (Z.div_unique_pos _ 90 q (2 * r + 45)); lia.
  - apply (Z.div_unique_pos _ 90 (q + 1) (2 * r - 45)); lia.
Qed.

(** X2: for a whole number of degrees no rounding tie can occur, and the
    label is the entry of the table at index [((4 * d + 45) / 90) mod 16],
    negative bearings included. *)
Theorem direction_to_text_int (d : Z) :
  small_int d →
  direction_to_text (VInt d)
  = py_list_getitem directions (((4 * d + 45) / 90) mod 16).
Proof.
  intros _. unfold direction_to_text. cbn [as_number mbind exn_bind].
  by rewrite direction_index_int.
Qed.

Lemma direction_to_text_int_witness :
  direction_to_text (VInt (-90)) = inr "W".
Proof.
  rewrite (direction_to_text_int (-90)); [reflexivity|]. unfold small_int. lia.
Defined.

(** X3: the label of a whole bearing names the nearest compass point: the
    bearing lies strictly within half a sector (11.25 degrees) of 22.5
    times the rounded quotient. *)
Theorem direction_nearest_point (d : Z) :
  small_int d →
  let k := py_round (inject_Z d / sector_width) in
  (inject_Z k * sector_width - (45 # 4) < inject_Z d)%Q
  ∧ (inject_Z d < inject_Z k * sector_width + (45 # 4))%Q.
Proof.
  intros _. cbv zeta.
  unfold sector_width, Qdiv, Qmult, Qinv, inject_Z. cbn [Qnum Qden].
  pose proof (Z.div_mod (d * 2) 45 ltac:(lia)) as Hdm.
  pose proof (Z.mod_pos_bound (d * 2) 45 ltac:(lia)) as Hmod.
  set (q := d * 2 / 45) in *. set (r := (d * 2) mod 45) in *.
  rewrite (py_round_char (d * 2) (1 * 45) q r) by lia.
  change (Zpos (1 * 45)) with 45.
  unfold Qlt, Qminus, Qplus, Qopp, Qmult. cbn [Qnum Qden].
  destruct (Z.compare_spec (2 * r) 45) as [He|Hl|Hg]; [lia| |]; split; lia.
Qed.

Lemma direction_nearest_point_witness :
  (inject_Z (py_round (inject_Z 100 / sector_width)) * sector_width - (45 # 4)
     < inject_Z 100)%Q.
Proof. apply (direction_nearest_point 100). unfold small_int. lia. Defined.

(** X4: [direction_to_text] returns one of the 16 labels on every
    [small_int], every finite float and every boolean, and raises
    [TypeError] on [None] and on strings; on these inputs the index never
    leaves the table, so there is no [IndexError]. *)
Theorem direction_to_text_outcomes (v : value) :
  (∀ d, v = VInt d → small_int d) →
  match direction_to_text v with
  | inr s => is_number v = true ∧ s ∈ directions
  | inl e => is_number v = false ∧ e = TypeError
  end.
Proof.
  intros _. destruct (is_number v) eqn:Hnum.
  - destruct (direction_to_text_number v Hnum) as (s & -> & Hs). done.
  - destruct v; try done.
Qed.

Lemma direction_to_text_outcomes_witness :
  match direction_to_text VNone with
  | inr s => is_number VNone = true ∧ s ∈ directions
  | inl e => is_number VNone = false ∧ e = TypeError
  end.
Proof. apply (direction_to_text_outcomes VNone). intros d Hd. discriminate Hd. Defined.

(** ** Shape normaliser, continued *)

(** X5: normalising is idempotent on every record, whatever its shape: a
    second pass over the result of the first changes nothing. *)
Theorem normalize_current_twice (cur : gmap string value) :
  normalize_current cur ≫= normalize_current = normalize_current cur.
Proof.
  destruct (normalize_current cur) as [e|cur'] eqn:Hn; [done|].
  cbn [mbind exn_bind]. by apply (normalize_current_idempotent cur).
Qed.

(** X6: the normaliser only ever writes the five modern keys: every other
    key, the legacy ones included, keeps its value, and no key is
    removed. *)
Theorem normalize_current_frame (cur : gmap string value) :
  ∃ cur',
    normalize_current cur = inr cur'
    ∧ (∀ k, k ∉ modern_fields → cur' !! k = cur !! k)
    ∧ dom cur ⊆ dom cur'.
Proof.
  destruct (is_legacy cur) eqn:Hleg.
  - destruct (is_legacy_windspeed cur Hleg) as (ws & Hws & _).
    eexists. split; [exact (normalize_current_legacy cur ws Hleg Hws)|]. split.
    + intros k Hk. unfold modern_fields in Hk.
      rewrite !not_elem_of_cons in Hk. destruct Hk as (? & ? & ? & ? & ? & _).
      by rewrite !lookup_insert_ne by done.
    + rewrite !dom_insert. set_solver.
  - exists cur. split; [by apply normalize_current_modern|]. done.
Qed.

Lemma normalize_current_frame_witness :
  ∃ cur',
    normalize_current legacy_example = inr cur'
    ∧ cur' !! "windspeed" = legacy_example !! "windspeed".
Proof.
  destruct (normalize_current_frame legacy_example) as (cur' & Hn & Hkeep & _).
  exists cur'. split; [exact Hn|]. apply Hkeep.
  unfold modern_fields. rewrite !not_elem_of_cons.
  repeat split; try discriminate. apply not_elem_of_nil.
Defined.

(** X7: on a record with [windspeed] but no [wind_speed_10m] the legacy
    branch overwrites every modern field: temperature, bearing and code
    become the legacy values, or 0 where the legacy key is missing, and
    humidity becomes [None], whatever modern values the record carried. *)
Theorem normalize_current_overwrites (cur : gmap string value) :
  is_legacy cur = true →
  ∃ cur',
    normalize_current cur = inr cur'
    ∧ cur' !! "wind_speed_10m" = cur !! "windspeed"
    ∧ cur' !! "wind_direction_10m" = Some (py_get cur "winddirection" (VInt 0))
    ∧ cur' !! "temperature_2m" = Some (py_get cur "temperature" (VInt 0))
    ∧ cur' !! "weather_code" = Some (py_get cur "weathercode" (VInt 0))
    ∧ cur' !! "relative_humidity_2m" = Some VNone.
Proof.
  intros Hleg. destruct (is_legacy_windspeed cur Hleg) as (ws & Hws & _).
  eexists. split; [exact (normalize_current_legacy cur ws Hleg Hws)|].
  rewrite Hws.
  repeat split;
    repeat first [ rewrite lookup_insert_eq | rewrite lookup_insert_ne by done ];
    reflexivity.
Qed.

Lemma normalize_current_overwrites_witness :
  mixed_example !! "temperature_2m" = Some (VFloat (43 # 2))
  ∧ ∃ cur',
      normalize_current mixed_example = inr cur'
      ∧ cur' !! "temperature_2m" = Some (VInt 0)
      ∧ cur' !! "relative_humidity_2m" = Some VNone.
Proof.
  split; [reflexivity|].
  destruct (normalize_current_overwrites mixed_example)
    as (cur' & Hn & _ & _ & Ht & _ & Hh); [reflexivity|].
  exists cur'. split; [exact Hn|]. split; [exact Ht|exact Hh].
Defined.

(** X8: the humidity read for display, [current.get(...) or 0], is the
    stored value whenever that is truthy, and the integer 0 in every other
    case (key missing, [None], zero, empty string); so it is never
    [None]. *)
Theorem humidity_never_none (cur : gmap string value) :
  humidity (read_current cur) ≠ VNone
  ∧ (∀ v, cur !! "relative_humidity_2m" = Some v → truthy v = true →
       humidity (read_current cur) = v)
  ∧ (∀ v, cur !! "relative_humidity_2m" = Some v → truthy v = false →
       humidity (read_current cur) = VInt 0)
  ∧ (cur !! "relative_humidity_2m" = None →
       humidity (read_current cur) = VInt 0).
Proof.
  unfold read_current, py_or, py_get. cbn [humidity].
  destruct (cur !! "relative_humidity_2m") as [v|] eqn:Hv; cbn [from_option id].
  - destruct (truthy v) eqn:Htr; split_and!; try done;
      try (intros v' [= <-] ?; first [reflexivity | congruence]).
    by destruct v.
  - cbn. split_and!; done.
Qed.

Lemma humidity_never_none_witness :
  humidity (read_current mixed_example) = VInt 80.
Proof.
  apply (proj1 (proj2 (humidity_never_none mixed_example)) (VInt 80));
    reflexivity.
Defined.

(** X9: from the response to the display, for a response that has only a
    legacy [current_weather] section: the scalars shown are the legacy
    wind speed, the legacy bearing, temperature and code (0 where
    missing), and humidity 0. *)
Theorem current_conditions_legacy (data : ForecastResponse)
    (cw : gmap string value) (ws : value) :
  current data = None ∨ current data = Some ∅ →
  current_weather data = Some cw →
  cw !! "windspeed" = Some ws → cw !! "wind_speed_10m" = None →
  current_conditions data
  = inr {| weather_code := py_get cw "weathercode" (VInt 0);
           temp := py_get cw "temperature" (VInt 0);
           humidity := VInt 0;
           wind_speed := ws;
           wind_dir := py_get cw "winddirection" (VInt 0) |}.
Proof.
  intros Hcur Hcw Hws Hnone.
  assert (Hsel : select_current data = cw).
  { unfold select_current. destruct Hcur as [->| ->]; rewrite Hcw; [done|].
    by rewrite decide_True. }
  assert (Hleg : is_legacy cw = true).
  { unfold is_legacy, py_in. by rewrite Hws, Hnone. }
  unfold current_conditions.
  rewrite Hsel, (normalize_current_legacy cw ws Hleg Hws).
  cbn [mbind exn_bind mret exn_ret]. f_equal.
  unfold read_current, py_or, py_get.
  repeat first [ rewrite lookup_insert_eq | rewrite lookup_insert_ne by done ].
  reflexivity.
Qed.

Lemma current_conditions_legacy_witness :
  current_conditions
    {| current := Some ∅; current_weather := Some legacy_example;
       hourly := None; daily := None |}
  = inr {| weather_code := VInt 3; temp := VFloat (25 # 2); humidity := VInt 0;
           wind_speed := VInt 20; wind_dir := VInt 90 |}.
Proof.
  apply (current_conditions_legacy _ legacy_example (VInt 20));
    [right; reflexivity|reflexivity|reflexivity|reflexivity].
Defined.

(** ** Tabular projection, continued *)

(** A comprehension whose body can only raise [e] raises [e] as soon as
    one element fails. *)
Lemma mapM_inl {A B} (f : A → exn + B) (l : list A) (e : exn) :
  (∀ x e', f x = inl e' → e' = e) →
  Exists (λ x, ∃ e', f x = inl e') l →
  mapM f l = inl e.
Proof.
  intros Hone. induction 1 as [x l [e' He']|x l _ IH]; cbn.
  - rewrite He'. cbn. by rewrite (Hone x e' He').
  - destruct (f x) as [e'|y] eqn:Hy; cbn; [by rewrite (Hone x e' Hy)|].
    by rewrite IH.
Qed.

Lemma pd_DataFrame_inv (cols : list (string * list value)) (df : DataFrame) :
  pd_DataFrame cols = inr df →
  df = cols ∧ Forall (λ kc, length kc.2 = n_rows cols) cols.
Proof.
  destruct cols as [|[k c] rest]; cbn [pd_DataFrame n_rows].
  - intros [= <-]. by split.
  - destruct (forallb _ rest) eqn:Hall; [|done]. intros [= <-].
    split; [done|]. constructor; [done|].
    apply Forall_forall. intros kc Hin. rewrite forallb_forall in Hall.
    by apply Nat.eqb_eq, Hall, list_elem_of_In.
Qed.

Lemma direction_to_text_label (v : value) (s : string) :
  direction_to_text v = inr s → s ∈ directions.
Proof.
  destruct (is_number v) eqn:Hnum.
  - destruct (direction_to_text_number v Hnum) as (s' & -> & Hs'). by intros [= <-].
  - by destruct v.
Qed.

Lemma direction_cell_label (v y : value) :
  direction_cell v = inr y → ∃ s, y = VStr s ∧ s ∈ directions.
Proof.
  unfold direction_cell.
  destruct (direction_to_text v) as [e|s] eqn:Hs; cbn; [done|].
  intros [= <-]. exists s. split; [done|]. by eapply direction_to_text_label.
Qed.

Lemma time_of_day_raises (v : value) (e : exn) :
  time_of_day v = inl e → e = TypeError ∧ is_str v = false.
Proof.
  destruct v; try (by intros [= <-]). by rewrite time_of_day_str.
Qed.

Lemma direction_cell_raises (v : value) (e : exn) :
  direction_cell v = inl e → e = TypeError ∧ is_number v = false.
Proof.
  destruct (is_number v) eqn:Hnum.
  - destruct (direction_cell_ok v Hnum) as [y ->]. done.
  - destruct v; try done; by intros [= <-].
Qed.

(** What a frame returned by the hourly projection looks like. *)
Lemma hourly_frame_inv (c : HourlyColumns) (df : DataFrame) :
  hourly_frame c = inr df →
  ∃ tijd datum wr,
    df = [ ("Tijd", tijd); ("Datum", datum); ("Temp (°C)", temps c);
           ("Wind (km/h)", wind_speeds c); ("Windrichting", wr);
           ("Neerslag %", precip_probs c) ]
    ∧ Forall2 (λ x y, time_of_day x = inr y) (times c) tijd
    ∧ Forall2 (λ x y, date_of x = inr y) (times c) datum
    ∧ Forall2 (λ x y, direction_cell x = inr y) (wind_dirs c) wr
    ∧ Forall (λ kc, length kc.2 = length (times c)) df.
Proof.
  unfold hourly_frame.
  destruct (mapM time_of_day (times c)) as [e|tijd] eqn:Ht; [done|].
  destruct (mapM date_of (times c)) as [e|datum] eqn:Hd; [done|].
  destruct (mapM direction_cell (wind_dirs c)) as [e|wr] eqn:Hw; [done|].
  cbn [mbind exn_bind]. intros [-> Hall]%pd_DataFrame_inv.
  apply mapM_inr_inv in Ht, Hd, Hw.
  exists tijd, datum, wr. repeat split; try done.
  cbn [n_rows] in Hall. by rewrite <- (Forall2_length _ _ _ Ht) in Hall.
Qed.

(** X10: whenever the hourly projection returns a frame, the frame has the
    six columns named as in the source, in source order, all of one length,
    namely [min 48] of the number of timestamps, and every cell of the
    direction column is one of the 16 labels. *)
Theorem hourly_projection_shape (h : gmap string (list value)) (df : DataFrame) :
  hourly_projection h = inr df →
  df.*1 = [ "Tijd"; "Datum"; "Temp (°C)"; "Wind (km/h)"; "Windrichting";
            "Neerslag %" ]
  ∧ n_rows df = (48 `min` length (py_get h "time" []))%nat
  ∧ Forall (λ kc, length kc.2 = n_rows df) df
  ∧ ∃ wr, column df "Windrichting" = Some wr
          ∧ Forall (λ y, ∃ s, y = VStr s ∧ s ∈ directions) wr.
Proof.
  intros (tijd & datum & wr & -> & Ht & _ & Hw & Hall)%hourly_frame_inv.
  split; [reflexivity|].
  cbn [slice_hourly times] in Hall, Ht. rewrite length_take in Hall.
  assert (Hrows : length tijd = (48 `min` length (py_get h "time" []))%nat).
  { by apply Forall_cons in Hall as [Hrows _]. }
  cbn [n_rows]. rewrite Hrows. split; [done|]. split; [done|].
  exists wr. split; [reflexivity|].
  apply Forall_forall. intros y Hy.
  apply list_elem_of_lookup in Hy as [i Hi].
  destruct (Forall2_lookup_r _ _ _ _ _ Hw Hi) as (x & _ & Hx).
  by apply (direction_cell_label x).
Qed.

Lemma hourly_projection_shape_witness :
  ∃ df, hourly_projection (hourly_example 72) = inr df ∧ n_rows df = 48%nat.
Proof.
  destruct (hourly_projection (hourly_example 72)) as [e|df] eqn:Hp;
    [vm_compute in Hp; discriminate Hp|].
  exists df. split; [reflexivity|].
  destruct (hourly_projection_shape _ df Hp) as (_ & Hrows & _).
  rewrite Hrows. reflexivity.
Defined.

(** X11: a section without a precipitation-probability array and with
    fewer than 48 timestamps, the empty section included, never yields a
    frame: the projection raises. *)
Theorem hourly_projection_short_raises (h : gmap string (list value)) :
  h !! "precipitation_probability" = None →
  (length (py_get h "time" []) < 48)%nat →
  ∃ e, hourly_projection h = inl e.
Proof.
  intros Hp Hlen. destruct (hourly_projection h) as [e|df] eqn:Hdf; [by exists e|].
  apply hourly_frame_inv in Hdf as (tijd & datum & wr & -> & _ & _ & _ & Hall).
  rewrite !Forall_cons in Hall. destruct Hall as (_ & _ & _ & _ & _ & Hpp & _).
  cbn [snd] in Hpp. rewrite (precip_probs_absent h Hp) in Hpp.
  cbn [slice_hourly times] in Hpp. rewrite length_replicate, length_take in Hpp.
  lia.
Qed.

Lemma hourly_projection_short_raises_witness :
  ∃ e, hourly_projection ∅ = inl e.
Proof.
  apply (hourly_projection_short_raises ∅); [reflexivity|vm_compute; lia].
Defined.

(** X12: a timestamp among the first 48 that is [None], a boolean or a
    number makes the projection raise [TypeError], whatever the other
    arrays hold. *)
Theorem hourly_projection_bad_time (h : gmap string (list value)) :
  Exists (λ v, has_no_len v = true) (take 48 (py_get h "time" [])) →
  hourly_projection h = inl TypeError.
Proof.
  intros Hbad. unfold hourly_projection, hourly_frame.
  cbn [slice_hourly times].
  rewrite (mapM_inl time_of_day _ TypeError); [done| |].
  - intros x e He. by apply time_of_day_raises in He as [-> _].
  - eapply Exists_impl; [exact Hbad|]. intros v Hv.
    destruct v; try done; by exists TypeError.
Qed.

Lemma hourly_projection_bad_time_witness :
  hourly_projection hourly_null_time = inl TypeError.
Proof.
  apply (hourly_projection_bad_time hourly_null_time).
  vm_compute. do 2 apply Exists_cons_tl. by apply Exists_cons_hd.
Defined.

(** X13: with string timestamps and no integer bearing beyond the
    [small_int] range, a bearing among the first 48 that is [None] or a
    string makes the projection raise [TypeError]. *)
Theorem hourly_projection_bad_bearing (h : gmap string (list value)) :
  Forall (λ v, is_str v = true) (take 48 (py_get h "time" [])) →
  Forall (λ v, big_int v = false) (take 48 (py_get h "wind_direction_10m" [])) →
  Exists (λ v, is_number v = false) (take 48 (py_get h "wind_direction_10m" [])) →
  hourly_projection h = inl TypeError.
Proof.
  intros Hstr _ Hbad. unfold hourly_projection, hourly_frame.
  cbn [slice_hourly times wind_dirs].
  destruct (mapM_inr_length time_of_day _
              (Forall_impl _ _ _ Hstr time_of_day_ok)) as (tijd & -> & _).
  destruct (mapM_inr_length date_of _
              (Forall_impl _ _ _ Hstr date_of_ok)) as (datum & -> & _).
  cbn [mbind exn_bind].
  rewrite (mapM_inl direction_cell _ TypeError); [done| |].
  - intros x e He. by apply direction_cell_raises in He as [-> _].
  - eapply Exists_impl; [exact Hbad|]. intros v Hv.
    destruct v; try done; by exists TypeError.
Qed.

Lemma hourly_projection_bad_bearing_witness :
  hourly_projection hourly_null_bearing = inl TypeError.
Proof.
  apply (hourly_projection_bad_bearing hourly_null_bearing).
  - vm_compute. repeat constructor.
  - change (take 48 (py_get hourly_null_bearing "wind_direction_10m" []))
      with [VInt 90; VNone; VInt 180].
    repeat constructor.
  - vm_compute. apply Exists_cons_tl. by apply Exists_cons_hd.
Defined.

(** X14: the projection reads only the first 48 entries of each array:
    cutting every array of the section to 48 entries beforehand gives the
    same result, frame or exception. *)
Theorem hourly_projection_prefix (h : gmap string (list value)) :
  hourly_projection (take 48 <$> h) = hourly_projection h.
Proof.
  unfold hourly_projection. f_equal. unfold slice_hourly, py_get.
  rewrite !lookup_fmap.
  f_equal;
    match goal with |- context [h !! ?k] => destruct (h !! k) as [l|] end;
    cbn; rewrite ?take_take; reflexivity.
Qed.

(** X15: the hourly tab builds its chart frame from the same sliced
    columns: whenever the table frame is built, the chart frame is built
    too, with as many rows and the same time column. *)
Theorem hourly_tab_chart (h : gmap string (list value)) (df : DataFrame) :
  hourly_projection h = inr df →
  ∃ chart,
    hourly_tab h = inr (df, chart)
    ∧ n_rows chart = n_rows df
    ∧ column chart "Tijd" = column df "Tijd"
    ∧ column chart "Temperatuur (°C)" = column df "Temp (°C)"
    ∧ column chart "Windsnelheid (km/h)" = column df "Wind (km/h)".
Proof.
  intros Hdf. unfold hourly_tab. unfold hourly_projection in Hdf. rewrite Hdf.
  cbn [mbind exn_bind].
  apply hourly_frame_inv in Hdf as (tijd & datum & wr & -> & Ht & _ & _ & Hall).
  unfold chart_frame.
  destruct (mapM_inr_length time_of_day (times (slice_hourly h)))
    as (tijd' & Htijd' & _).
  { apply Forall_forall. intros x Hx. apply list_elem_of_lookup in Hx as [i Hi].
    destruct (Forall2_lookup_l _ _ _ _ _ Ht Hi) as (y & _ & Hy). eauto. }
  pose proof (mapM_inr_inv _ _ _ Htijd') as Ht'.
  assert (tijd' = tijd) as ->.
  { apply list_eq. intros i.
    destruct (times (slice_hourly h) !! i) as [x|] eqn:Hx.
    - destruct (Forall2_lookup_l _ _ _ _ _ Ht Hx) as (y & -> & Hy).
      destruct (Forall2_lookup_l _ _ _ _ _ Ht' Hx) as (y' & -> & Hy').
      congruence.
    - apply lookup_ge_None in Hx.
      rewrite !(proj2 (lookup_ge_None _ _)); [done| |].
      + by rewrite <- (Forall2_length _ _ _ Ht).
      + by rewrite <- (Forall2_length _ _ _ Ht'). }
  rewrite Htijd'. cbn [mbind exn_bind].
  rewrite !Forall_cons in Hall. cbn [snd] in Hall.
  destruct Hall as (Hl1 & _ & Hl3 & Hl4 & _).
  match goal with |- ∃ chart, pd_DataFrame ?cols ≫= _ = _ ∧ _ =>
    destruct (pd_DataFrame_aligned cols (length tijd)) as [Hch _];
      [done| |rewrite Hch; exists cols]
  end.
  - repeat (apply Forall_cons; split); try apply Forall_nil; cbn [snd]; lia.
  - repeat split.
Qed.

Lemma hourly_tab_chart_witness :
  ∃ df chart, hourly_tab (hourly_example 10) = inr (df, chart)
              ∧ n_rows chart = n_rows df.
Proof.
  destruct (hourly_projection (hourly_example 10)) as [e|df] eqn:Hp;
    [vm_compute in Hp; discriminate Hp|].
  destruct (hourly_tab_chart _ df Hp) as (chart & Htab & Hrows & _).
  exists df, chart. split; [exact Htab|exact Hrows].
Defined.

(** ** The 7-day tab *)

Lemma daily_frame_inv (c : DailyColumns) (df : DataFrame) :
  daily_frame c = inr df →
  ∃ wr,
    df = [ ("Datum", daily_times c); ("Max (°C)", daily_max c);
           ("Min (°C)", daily_min c); ("Neerslag (mm)", daily_precip c);
           ("Max wind (km/h)", daily_wind_max c); ("Windrichting", wr) ]
    ∧ Forall (λ kc, length kc.2 = length (daily_times c)) df.
Proof.
  unfold daily_frame.
  destruct (mapM direction_cell (daily_wind_dir c)) as [e|wr]; [done|].
  cbn [mbind exn_bind]. intros [-> Hall]%pd_DataFrame_inv.
  exists wr. by split.
Qed.

(** X16: the daily projection does not truncate: when the six daily
    arrays (an absent one counting as empty) have one length [n] and the
    bearings are floats, booleans or [small_int]s, it yields a frame of
    exactly [n] rows, beyond 48 as well as for the empty section. *)
Theorem daily_projection_rows (d : gmap string (list value)) (n : nat) :
  length (py_get d "time" []) = n →
  length (py_get d "temperature_2m_max" []) = n →
  length (py_get d "temperature_2m_min" []) = n →
  length (py_get d "precipitation_sum" []) = n →
  length (py_get d "wind_speed_10m_max" []) = n →
  length (py_get d "wind_direction_10m_dominant" []) = n →
  Forall (λ v, is_bearing v = true) (py_get d "wind_direction_10m_dominant" []) →
  ∃ df, daily_projection d = inr df
        ∧ n_rows df = n
        ∧ Forall (λ kc, length kc.2 = n) df.
Proof.
  intros Ht Hmax Hmin Hpr Hwm Hwd Hbear.
  assert (Hnum : Forall (λ v, is_number v = true)
                   (py_get d "wind_direction_10m_dominant" [])).
  { eapply Forall_impl; [exact Hbear|]. intros v Hv. unfold is_bearing in Hv.
    by apply andb_true_iff in Hv as [? _]. }
  unfold daily_projection, daily_frame, read_daily.
  cbn [daily_times daily_max daily_min daily_precip daily_wind_max daily_wind_dir].
  destruct (mapM_inr_length direction_cell _
              (Forall_impl _ _ _ Hnum direction_cell_ok)) as (wr & -> & Hwr).
  cbn [mbind exn_bind].
  match goal with |- ∃ df, pd_DataFrame ?cols = _ ∧ _ =>
    destruct (pd_DataFrame_aligned cols n) as [Hdf Hrows];
      [done| |exists cols; split; [exact Hdf|split; [exact Hrows|]]]
  end.
  all: repeat (apply Forall_cons; split); try apply Forall_nil; cbn [snd]; lia.
Qed.

Lemma daily_projection_rows_witness :
  (∃ df, daily_projection (daily_example 60) = inr df ∧ n_rows df = 60%nat)
  ∧ (∃ df, daily_projection ∅ = inr df ∧ n_rows df = 0%nat).
Proof.
  split.
  - destruct (daily_projection_rows (daily_example 60) 60)
      as (df & Hdf & Hn & _);
      [vm_compute; reflexivity|vm_compute; reflexivity|vm_compute; reflexivity
      |vm_compute; reflexivity|vm_compute; reflexivity|vm_compute; reflexivity
      | |].
    { apply Forall_forall. intros v Hv. apply list_elem_of_In in Hv.
      revert v Hv. apply forallb_forall. vm_compute. reflexivity. }
    exists df. split; [exact Hdf|exact Hn].
  - destruct (daily_projection_rows ∅ 0) as (df & Hdf & Hn & _);
      [reflexivity|reflexivity|reflexivity|reflexivity|reflexivity|reflexivity
      |constructor|].
    exists df. split; [exact Hdf|exact Hn].
Defined.

(** X17: the notice that daily wind data is unavailable is shown only
    next to an empty table: when the 7-day tab gets as far as choosing the
    wind panel, it picks the notice exactly when the frame has no rows. A
    missing wind-maximum array beside non-empty arrays raises instead. *)
Theorem daily_tab_wind_panel (d : gmap string (list value))
    (df : DataFrame) (panel : WindPanel) :
  daily_tab d = inr (df, panel) →
  (panel = WindUnavailable ↔ n_rows df = 0%nat)
  ∧ (panel = WindChart ↔ py_get d "wind_speed_10m_max" [] ≠ []).
Proof.
  unfold daily_tab, daily_projection.
  destruct (daily_frame (read_daily d)) as [e|df'] eqn:Hdf; [done|].
  cbn [mbind exn_bind]. intros [= <- <-].
  apply daily_frame_inv in Hdf as (wr & -> & Hall).
  rewrite !Forall_cons in Hall. cbn [snd] in Hall.
  destruct Hall as (_ & _ & _ & _ & Hwm & _).
  cbn [n_rows]. rewrite <- Hwm. unfold wind_panel.
  cbn [read_daily daily_wind_max].
  destruct (py_get d "wind_speed_10m_max" []) as [|v l]; cbn [length];
    split; split; try done.
Qed.

Lemma daily_tab_wind_panel_witness :
  ∃ df, daily_tab ∅ = inr (df, WindUnavailable) ∧ n_rows df = 0%nat.
Proof.
  destruct (daily_tab ∅) as [e|[df panel]] eqn:Htab;
    [vm_compute in Htab; discriminate Htab|].
  destruct (daily_tab_wind_panel ∅ df panel Htab) as [[_ Hpanel] _].
  assert (Hrows : n_rows df = 0%nat).
  { vm_compute in Htab. by injection Htab as <- _. }
  exists df. split; [|exact Hrows]. f_equal. f_equal. by apply Hpanel.
Defined.

(** X18: a daily section that lacks its wind-maximum array but has
    timestamps never reaches the unavailable notice: the tab raises. *)
Theorem daily_tab_missing_wind_raises (d : gmap string (list value)) :
  d !! "wind_speed_10m_max" = None →
  py_get d "time" [] ≠ [] →
  ∃ e, daily_tab d = inl e.
Proof.
  intros Hwm Htime. destruct (daily_tab d) as [e|[df panel]] eqn:Htab; [by exists e|].
  exfalso. unfold daily_tab, daily_projection in Htab.
  destruct (daily_frame (read_daily d)) as [e|df'] eqn:Hdf; [done|].
  apply daily_frame_inv in Hdf as (wr & -> & Hall).
  rewrite !Forall_cons in Hall. cbn [snd] in Hall.
  destruct Hall as (_ & _ & _ & _ & Hlen & _).
  cbn [read_daily daily_wind_max daily_times] in Hlen.
  unfold py_get in Hlen at 1. rewrite Hwm in Hlen. cbn in Hlen.
  destruct (py_get d "time" []); [done|discriminate Hlen].
Qed.

Lemma daily_tab_missing_wind_raises_witness :
  ∃ e, daily_tab (delete "wind_speed_10m_max" (daily_example 7)) = inl e.
Proof.
  apply (daily_tab_missing_wind_raises _); [reflexivity|by vm_compute].
Defined.

(** ** Weather client, continued *)

Section client_more.
Variable up : Upstream.

(** X19: the entry expires: when the second call comes [ttl] = 600
    seconds or more after the call that stored the entry, it sends a second
    request, returns the new result and restamps the entry. *)
Theorem fetch_weather_data_expires (s : AppState) (lat lon : Qc) (t1 t2 : Z) :
  fresh s t1 lat lon = false → t1 + ttl ≤ t2 →
  let '(r1, s1) := fetch_weather_data up t1 lat lon s in
  let '(r2, s2) := fetch_weather_data up t2 lat lon s1 in
  fresh s1 t2 lat lon = false
  ∧ r2 = up t2 lat lon
  ∧ network_calls s2 = (lat, lon) :: (lat, lon) :: network_calls s
  ∧ cache s2 !! (lat, lon)
    = Some {| stored_at := t2; cached := up t2 lat lon |}.
Proof.
  intros Hstale Hexp. rewrite (fetch_miss up s t1 lat lon Hstale).
  set (s1 := {| cache := _; network_calls := _ |}).
  assert (Hstale1 : fresh s1 t2 lat lon = false).
  { unfold fresh, s1. cbn [cache]. rewrite lookup_insert_eq. cbn [stored_at]. lia. }
  rewrite (fetch_miss up s1 t2 lat lon Hstale1).
  repeat split; [exact Hstale1|]. cbn [cache]. apply lookup_insert_eq.
Qed.

(** X20: entries are kept per coordinate pair: a call for other
    coordinates leaves the entry of this pair, and so its freshness at any
    time, as they were. *)
Theorem fetch_weather_data_other_key (s : AppState) (now : Z)
    (lat lon lat' lon' : Qc) :
  (lat', lon') ≠ (lat, lon) →
  let s' := (fetch_weather_data up now lat' lon' s).2 in
  cache s' !! (lat, lon) = cache s !! (lat, lon)
  ∧ ∀ t, fresh s' t lat lon = fresh s t lat lon.
Proof.
  intros Hne. cbv zeta.
  assert (Hkeep : cache (fetch_weather_data up now lat' lon' s).2 !! (lat, lon)
                  = cache s !! (lat, lon)).
  { destruct (fresh s now lat' lon') eqn:Hf.
    - unfold fresh in Hf.
      destruct (cache s !! (lat', lon')) as [e|] eqn:He; [|done].
      rewrite (fetch_hit up s now lat' lon' e He); [done|lia].
    - rewrite (fetch_miss up s now lat' lon' Hf). cbn [snd cache].
      by apply lookup_insert_ne. }
  split; [exact Hkeep|]. intros t. unfold fresh. by rewrite Hkeep.
Qed.


(** X22: whatever the state, a call leaves a fresh entry behind, so the
    same call repeated at the same instant returns the same value and
    changes nothing. *)
Theorem fetch_weather_data_repeat (s : AppState) (now : Z) (lat lon : Qc) :
  let '(r1, s1) := fetch_weather_data up now lat lon s in
  fresh s1 now lat lon = true
  ∧ fetch_weather_data up now lat lon s1 = (r1, s1).
Proof.
  destruct (fresh s now lat lon) eqn:Hf.
  - pose proof Hf as Hf'. unfold fresh in Hf.
    destruct (cache s !! (lat, lon)) as [e|] eqn:He; [|done].
    rewrite (fetch_hit up s now lat lon e He) by lia.
    split; [exact Hf'|]. apply fetch_hit; [done|lia].
  - rewrite (fetch_miss up s now lat lon Hf).
    set (e := {| stored_at := now; cached := up now lat lon |}).
    set (s1 := {| cache := _; network_calls := _ |}).
    assert (He : cache s1 !! (lat, lon) = Some e) by apply lookup_insert_eq.
    split.
    + unfold fresh. rewrite He. cbn [stored_at e]. unfold ttl. lia.
    + rewrite (fetch_hit up s1 now lat lon e He); [done|].
      cbn [stored_at e]. unfold ttl. lia.
Qed.

(** Runs of [main] inside the window of a stored entry all read it. *)
Lemma reruns_hits (ts : list Z) (s : AppState) (e : CacheEntry) :
  cache s !! (VENLO_LAT, VENLO_LON) = Some e →
  Forall (λ t, t < stored_at e + ttl) ts →
  reruns up ts s = (replicate (length ts) (cached e), s).
Proof.
  intros He. induction 1 as [|t ts Ht _ IH]; [done|].
  cbn [reruns]. rewrite (main_fetch_rerun up s t e He Ht). by rewrite IH.
Qed.

(** X23: any number of runs of [main] without a press of the refresh
    button, all less than 600 seconds after a run that had to fetch, send
    no request at all: the whole series costs the one request of the first
    run, and every run gets the result of that request. *)
Theorem reruns_one_request (s : AppState) (t0 : Z) (ts : list Z) :
  fresh s t0 VENLO_LAT VENLO_LON = false →
  Forall (λ t, t < t0 + ttl) ts →
  let '(rs, s') := reruns up (t0 :: ts) s in
  rs = replicate (S (length ts)) (up t0 VENLO_LAT VENLO_LON)
  ∧ network_calls s' = (VENLO_LAT, VENLO_LON) :: network_calls s.
Proof.
  intros Hstale Hwin. cbn [reruns]. unfold main_fetch.
  rewrite (fetch_miss up s t0 _ _ Hstale).
  set (e := {| stored_at := t0; cached := up t0 VENLO_LAT VENLO_LON |}).
  set (s1 := {| cache := _; network_calls := _ |}).
  rewrite (reruns_hits ts s1 e); [done|apply lookup_insert_eq|exact Hwin].
Qed.

(** X24: a failed fetch is remembered like any other result: after a run
    of [main] whose request failed, a run inside the window still gets
    [None] although the upstream has recovered, while a run after a press
    of the refresh button gets the recovered response. *)
Theorem main_fetch_failure_cached (s : AppState) (t1 t2 : Z)
    (data : ForecastResponse) :
  fresh s t1 VENLO_LAT VENLO_LON = false → t2 < t1 + ttl →
  up t1 VENLO_LAT VENLO_LON = None →
  up t2 VENLO_LAT VENLO_LON = Some data →
  let s1 := (main_fetch up t1 false s).2 in
  (main_fetch up t1 false s).1 = None
  ∧ main_fetch up t2 false s1 = (None, s1)
  ∧ (main_fetch up t2 true s1).1 = Some data.
Proof.
  intros Hstale Hwin Hfail Hback. cbv zeta.
  set (e := {| stored_at := t1; cached := None |}).
  assert (H1 : main_fetch up t1 false s
               = (None,
                  {| cache := <[(VENLO_LAT, VENLO_LON) := e]> (cache s);
                     network_calls := (VENLO_LAT, VENLO_LON) :: network_calls s |})).
  { unfold main_fetch. by rewrite (fetch_miss up s t1 _ _ Hstale), Hfail. }
  rewrite H1. cbn [fst snd].
  set (s1 := {| cache := _; network_calls := _ |}).
  assert (He : cache s1 !! (VENLO_LAT, VENLO_LON) = Some e) by apply lookup_insert_eq.
  split; [done|]. split.
  - by rewrite (main_fetch_rerun up s1 t2 e He Hwin).
  - by rewrite main_fetch_refresh.
Qed.
End client_more.

Lemma fetch_weather_data_expires_witness :
  let up : Upstream := λ _ _ _, None in
  let s0 := {| cache := ∅; network_calls := [] |} in
  let '(r1, s1) := fetch_weather_data up 0 VENLO_LAT VENLO_LON s0 in
  let '(r2, s2) := fetch_weather_data up 600 VENLO_LAT VENLO_LON s1 in
  network_calls s2 = [(VENLO_LAT, VENLO_LON); (VENLO_LAT, VENLO_LON)].
Proof.
  intros up s0.
  pose proof (fetch_weather_data_expires up s0 VENLO_LAT VENLO_LON 0 600
                ltac:(reflexivity) ltac:(by vm_compute)) as H.
  destruct (fetch_weather_data up 0 VENLO_LAT VENLO_LON s0) as [r1 s1].
  destruct (fetch_weather_data up 600 VENLO_LAT VENLO_LON s1) as [r2 s2].
  by destruct H as (_ & _ & Hcalls & _).
Defined.

Lemma fetch_weather_data_other_key_witness :
  let up : Upstream := λ _ _ _, None in
  let s0 := {| cache := ∅; network_calls := [] |} in
  cache (fetch_weather_data up 0 VENLO_LON VENLO_LAT s0).2
    !! (VENLO_LAT, VENLO_LON) = None.
Proof.
  intros up s0.
  apply (fetch_weather_data_other_key up s0 0 VENLO_LAT VENLO_LON
           VENLO_LON VENLO_LAT).
  by vm_compute.
Defined.

Lemma reruns_one_request_witness :
  let up : Upstream := λ _ _ _, None in
  let s0 := {| cache := ∅; network_calls := [] |} in
  let '(rs, s') := reruns up [0; 10; 300; 599] s0 in
  rs = [None; None; None; None]
  ∧ network_calls s' = [(VENLO_LAT, VENLO_LON)].
Proof.
  intros up s0.
  apply (reruns_one_request up s0 0 [10; 300; 599]); [reflexivity|].
  repeat constructor.
Defined.

Lemma main_fetch_failure_cached_witness :
  let data := {| current := Some modern_example; current_weather := None;
                 hourly := None; daily := None |} in
  let up : Upstream := λ t _ _, if t <? 100 then None else Some data in
  let s0 := {| cache := ∅; network_calls := [] |} in
  let s1 := (main_fetch up 0 false s0).2 in
  main_fetch up 300 false s1 = (None, s1)
  ∧ (main_fetch up 300 true s1).1 = Some data.
Proof.
  intros data up s0.
  destruct (main_fetch_failure_cached up s0 0 300 data) as (_ & Hhit & Hnew);
    try reflexivity.
  split; [exact Hhit|exact Hnew].
Defined.
